(** * SQL-Agent backend: the name sanitizer, the upload and ask handlers and
      the result normalizer of [backend/main.py], embedded and verified. *)

From Stdlib Require Import NArith ZArith String Ascii List Bool Lia.
From Stdlib Require Import Decimal DecimalString DecimalN.
From stdpp Require Import base option list gmap.

Set Warnings "-register-all".
Open Scope N_scope.

(** ** Python strings

    A Python [str] is a sequence of Unicode code points.  A code point is a
    number; an ASCII literal of the source is written [str "..."]. *)

Abbreviation char := N (only parsing).
Abbreviation pystr := (list N) (only parsing).

Definition str (s : string) : pystr :=
  map N_of_ascii (list_ascii_of_string s).

Definition in_range (lo hi c : char) : bool := (lo <=? c) && (c <=? hi).

(** [str.isspace] of one character: the code points Python treats as white
    space ([str.strip] without argument removes exactly these). *)
Definition isspace (c : char) : bool :=
  in_range 0x09 0x0D c || in_range 0x1C 0x20 c || (c =? 0x85) || (c =? 0xA0)
  || (c =? 0x1680) || in_range 0x2000 0x200A c || (c =? 0x2028)
  || (c =? 0x2029) || (c =? 0x202F) || (c =? 0x205F) || (c =? 0x3000).

Fixpoint lstrip (s : pystr) : pystr :=
  match s with
  | [] => []
  | c :: t => if isspace c then lstrip t else s
  end.

Definition rstrip (s : pystr) : pystr := rev (lstrip (rev s)).

(** [s.strip()] *)
Definition strip (s : pystr) : pystr := rstrip (lstrip s).

(** [str.lower] of one character.  ASCII capitals go to their small letter.
    Above U+007F exactly two code points have a lowercase form that contains
    an ASCII character: U+0130 (to U+0069 U+0307) and U+212A (to U+006B).
    Every other code point above U+007F lowercases to code points above
    U+007F; it is kept as it is, which the callers below cannot tell apart
    (they compare with ASCII text only). *)
Definition lower_char (c : char) : pystr :=
  if in_range 0x41 0x5A c then [c + 32]
  else if c =? 0x130 then [0x69; 0x307]
  else if c =? 0x212A then [0x6B]
  else [c].

(** [s.lower()] *)
Definition lower (s : pystr) : pystr := flat_map lower_char s.

Fixpoint startswith (p s : pystr) : bool :=
  match p, s with
  | [], _ => true
  | a :: p', b :: s' => (a =? b) && startswith p' s'
  | _ :: _, [] => false
  end.

Definition endswith (p s : pystr) : bool := startswith (rev p) (rev s).

(** ** Regular expressions of [_safe_table_name] *)

Definition is_digit (c : char) : bool := in_range 0x30 0x39 c.

(** The character class [[0-9a-z_]]. *)
Definition is_word (c : char) : bool :=
  is_digit c || in_range 0x61 0x7A c || (c =? 0x5F).

(** The decimal digits above U+007F (Unicode category Nd), as ranges. *)
Definition unicode_Nd : list (N * N) :=
  [ (0x660, 0x669); (0x6F0, 0x6F9); (0x7C0, 0x7C9); (0x966, 0x96F);
    (0x9E6, 0x9EF); (0xA66, 0xA6F); (0xAE6, 0xAEF); (0xB66, 0xB6F);
    (0xBE6, 0xBEF); (0xC66, 0xC6F); (0xCE6, 0xCEF); (0xD66, 0xD6F);
    (0xDE6, 0xDEF); (0xE50, 0xE59); (0xED0, 0xED9); (0xF20, 0xF29);
    (0x1040, 0x1049); (0x1090, 0x1099); (0x17E0, 0x17E9); (0x1810, 0x1819);
    (0x1946, 0x194F); (0x19D0, 0x19D9); (0x1A80, 0x1A89); (0x1A90, 0x1A99);
    (0x1B50, 0x1B59); (0x1BB0, 0x1BB9); (0x1C40, 0x1C49); (0x1C50, 0x1C59);
    (0xA620, 0xA629); (0xA8D0, 0xA8D9); (0xA900, 0xA909); (0xA9D0, 0xA9D9);
    (0xA9F0, 0xA9F9); (0xAA50, 0xAA59); (0xABF0, 0xABF9); (0xFF10, 0xFF19);
    (0x104A0, 0x104A9); (0x10D30, 0x10D39); (0x11066, 0x1106F);
    (0x110F0, 0x110F9); (0x11136, 0x1113F); (0x111D0, 0x111D9);
    (0x112F0, 0x112F9); (0x11450, 0x11459); (0x114D0, 0x114D9);
    (0x11650, 0x11659); (0x116C0, 0x116C9); (0x11730, 0x11739);
    (0x118E0, 0x118E9); (0x11950, 0x11959); (0x11C50, 0x11C59);
    (0x11D50, 0x11D59); (0x11DA0, 0x11DA9); (0x16A60, 0x16A69);
    (0x16AC0, 0x16AC9); (0x16B50, 0x16B59); (0x1D7CE, 0x1D7FF);
    (0x1E140, 0x1E149); (0x1E2F0, 0x1E2F9); (0x1E950, 0x1E959);
    (0x1FBF0, 0x1FBF9) ].

(** The class [\d] of a [str] pattern: any Unicode decimal digit. *)
Definition re_digit (c : char) : bool :=
  if c <? 0x80 then is_digit c
  else existsb (fun r => in_range (fst r) (snd r) c) unicode_Nd.

(** [re.match(r"^\d", name)], as a truth value. *)
Definition re_match_digit (name : pystr) : bool :=
  match name with
  | [] => false
  | c :: _ => re_digit c
  end.

Definition underscore : char := 0x5F.

(** [re.sub(r"[^0-9a-z_]+", "_", s)]: the scan moves left to right; a match
    starts at the first character outside the class and, being greedy, runs
    up to the next character of the class (or the end); it is replaced by one
    underscore.  [in_match] says the scan is inside a match already. *)
Fixpoint re_sub_from (in_match : bool) (s : pystr) : pystr :=
  match s with
  | [] => []
  | c :: t =>
      if is_word c then c :: re_sub_from false t
      else if in_match then re_sub_from true t
      else underscore :: re_sub_from true t
  end.

Definition re_sub_nonword (s : pystr) : pystr := re_sub_from false s.

(** ** [_safe_table_name] (main.py, lines 71-83) *)

Definition _safe_table_name (name : pystr) : pystr :=
  let name := lower (strip name) in
  let name := re_sub_nonword name in
  let name := if re_match_digit name then str "t_" ++ name else name in
  match name with
  | [] => str "table1"
  | _ => name
  end.

(** ** The sanitizer as the specification words it (section 4.1)

    Lowercase; replace every maximal run of characters outside [[0-9a-z_]]
    by one underscore; prefix [t_] when the result begins with a digit; the
    fallback [table1] when the result is empty. *)

(** The maximal runs of a string: consecutive characters of the same kind
    (inside the class or outside it) are grouped. *)
Fixpoint runs (s : pystr) : list (bool * pystr) :=
  match s with
  | [] => []
  | c :: t =>
      match runs t with
      | (w, r) :: rs =>
          if Bool.eqb w (is_word c) then (w, c :: r) :: rs
          else (is_word c, [c]) :: (w, r) :: rs
      | [] => [(is_word c, [c])]
      end
  end.

Definition replace_run (wr : bool * pystr) : pystr :=
  if fst wr then snd wr else [underscore].

Definition replace_runs (s : pystr) : pystr :=
  concat (map replace_run (runs s)).

Definition begins_with_digit (s : pystr) : bool :=
  match s with
  | [] => false
  | c :: _ => is_digit c
  end.

Definition sanitize_spec (s : pystr) : pystr :=
  let r := replace_runs (lower s) in
  let r := if begins_with_digit r then str "t_" ++ r else r in
  match r with
  | [] => str "table1"
  | _ => r
  end.

(** The language of [^[a-z_][a-z0-9_]*$], as a full match. *)
Definition is_identifier (s : pystr) : bool :=
  match s with
  | [] => false
  | c :: t => (in_range 0x61 0x7A c || (c =? 0x5F)) && forallb is_word t
  end.


(** ** Python values

    The data [ast.literal_eval] can return, and the objects found in an agent
    trace.  A set is given by its elements in iteration order, a dictionary
    by its items in insertion order. *)

Inductive pyfloat : Type :=
| FFinite (mantissa exponent : Z)
| FInf (negative : bool)
| FNan.

Inductive pyval : Type :=
| PNone
| PEllipsis
| PBool (b : bool)
| PInt (n : Z)
| PFloat (f : pyfloat)
| PComplex (re im : pyfloat)
| PStr (s : pystr)
| PBytes (b : list N)
| PList (l : list pyval)
| PTuple (l : list pyval)
| PSet (l : list pyval)
| PDict (items : list (pyval * pyval)).

Definition float_nonzero (f : pyfloat) : bool :=
  match f with
  | FFinite m _ => negb (m =? 0)%Z
  | _ => true
  end.

Definition nonempty {A} (l : list A) : bool :=
  match l with [] => false | _ => true end.

(** [bool(v)] *)
Definition truthy (v : pyval) : bool :=
  match v with
  | PNone => false
  | PEllipsis => true
  | PBool b => b
  | PInt n => negb (n =? 0)%Z
  | PFloat f => float_nonzero f
  | PComplex a b => float_nonzero a || float_nonzero b
  | PStr s => nonempty s
  | PBytes b => nonempty b
  | PList l | PTuple l | PSet l => nonempty l
  | PDict kv => nonempty kv
  end.

(** [isinstance(v, list)] and [isinstance(v, (list, tuple))] *)
Definition is_list (v : pyval) : bool :=
  match v with PList _ => true | _ => false end.

Definition is_list_or_tuple (v : pyval) : bool :=
  match v with PList _ | PTuple _ => true | _ => false end.

(** The items of a list or tuple ([len], indexing). *)
Definition seq_items (v : pyval) : list pyval :=
  match v with PList l | PTuple l => l | _ => [] end.

(** Iteration, as [zip] performs it on its arguments; [None] is the
    [TypeError] of an object that is not iterable. *)
Definition iter_items (v : pyval) : option (list pyval) :=
  match v with
  | PList l | PTuple l | PSet l => Some l
  | PStr s => Some (map (fun c => PStr [c]) s)
  | PBytes b => Some (map (fun c => PInt (Z.of_N c)) b)
  | PDict kv => Some (map fst kv)
  | _ => None
  end.

(** ** Exceptions *)

Inductive exn : Type :=
| HTTPException (status_code : N) (detail : pystr)
| PyError (kind : pystr) (message : pystr).

Inductive outcome (A : Type) : Type :=
| Done (a : A)
| Raised (e : exn).
Arguments Done {A} a.
Arguments Raised {A} e.

Definition obind {A B} (m : outcome A) (k : A -> outcome B) : outcome B :=
  match m with
  | Done a => k a
  | Raised e => Raised e
  end.

Declare Scope exc_scope.
Delimit Scope exc_scope with exc.
Notation "x <- m ;; k" := (obind m (fun x => k))
  (at level 100, m at next level, right associativity) : exc_scope.

(** A list comprehension whose element expression may raise: elements are
    computed in order and the first exception ends the comprehension. *)
Fixpoint comprehension {A B} (f : A -> outcome B) (l : list A)
  : outcome (list B) :=
  match l with
  | [] => Done []
  | a :: t =>
      (b <- f a ;; bs <- comprehension f t ;; Done (b :: bs))%exc
  end.

(** ** The result normalizer (main.py, lines 213-250) *)

(** [str(n)] of a non-negative integer. *)
Definition decimal (n : N) : pystr :=
  str (NilEmpty.string_of_uint (N.to_uint n)).

(** [[f"col_{i+1}" for i in range(n)]] *)
Definition column_names (n : nat) : list pystr :=
  map (fun i => str "col_" ++ decimal (N.of_nat i + 1)) (seq 0 n).

(** A dictionary with [str] keys under construction: a key already present
    keeps its place and takes the new value. *)
Fixpoint dict_set (k : pystr) (v : pyval) (d : list (pystr * pyval))
  : list (pystr * pyval) :=
  match d with
  | [] => [(k, v)]
  | (k', v') :: t =>
      if decide (k' = k) then (k, v) :: t else (k', v') :: dict_set k v t
  end.

(** [dict(pairs)] *)
Definition dict_of (pairs : list (pystr * pyval)) : list (pystr * pyval) :=
  fold_left (fun d kv => dict_set (fst kv) (snd kv) d) pairs [].

Definition PRecord (d : list (pystr * pyval)) : pyval :=
  PDict (map (fun kv => (PStr (fst kv), snd kv)) d).

Definition type_error : exn :=
  PyError (str "TypeError") (str "object is not iterable").

(** [dict(zip(column_names, r))] *)
Definition record_of (cols : list pystr) (r : pyval) : outcome pyval :=
  match iter_items r with
  | Some xs => Done (PRecord (dict_of (zip cols xs)))
  | None => Raised type_error
  end.

(** Lines 243-246: tuples to dictionaries. *)
Definition convert_rows (rows : pyval) : outcome pyval :=
  if truthy rows && is_list rows && (0 <? length (seq_items rows))%nat then
    match seq_items rows with
    | r0 :: _ =>
        if is_list_or_tuple r0 then
          let cols := column_names (length (seq_items r0)) in
          (rs <- comprehension (record_of cols) (seq_items rows) ;;
           Done (PList rs))%exc
        else Done rows
    | [] => Done rows
    end
  else Done rows.

(** One entry of [intermediate_steps].  The handler looks at an entry only
    when it is a list or tuple of two items at least; then item 0 is examined
    through [hasattr] ([None]: the attribute is missing) and item 1 is the
    tool output. *)
Record action : Type := Action {
  tool : option pyval;
  tool_input : option pyval
}.

Inductive step : Type :=
| StepPair (tool_info : action) (output : pyval)
| StepOther.

Definition sql_db_query : pystr := str "sql_db_query".

(** [hasattr(tool_info, "tool") and tool_info.tool == "sql_db_query"] *)
Definition is_query_tool (a : action) : bool :=
  match tool a with
  | Some (PStr s) => bool_decide (s = sql_db_query)
  | _ => false
  end.

(** Step 5 (lines 215-223). *)
Fixpoint sql_queries_of (steps : list step) : list pyval :=
  match steps with
  | [] => []
  | StepPair a _ :: rest =>
      match tool a, tool_input a with
      | Some _, Some inp =>
          if is_query_tool a then inp :: sql_queries_of rest
          else sql_queries_of rest
      | _, _ => sql_queries_of rest
      end
  | StepOther :: rest => sql_queries_of rest
  end.

(** What [ast.literal_eval] does with a string: a value, the [ValueError] or
    [SyntaxError] of a malformed literal, or another exception (for instance
    [RecursionError] or [MemoryError]). *)
Inductive eval_result : Type :=
| Evaluated (v : pyval)
| Malformed
| Failed (e : exn).

Section Normalizer.

(** [ast.literal_eval], of the Python library. *)
Variable literal_eval : pystr -> eval_result.

(** [isinstance(output, str) and output.strip().startswith("[")] *)
Definition looks_like_rows (output : pyval) : bool :=
  match output with
  | PStr s => startswith (str "[") (strip s)
  | _ => false
  end.

(** Lines 234-240; [rows] is [None] when the loop reaches them. *)
Definition parse_output (output : pyval) : outcome pyval :=
  if looks_like_rows output then
    match output with
    | PStr s =>
        match literal_eval s with
        | Evaluated v => Done v
        | Malformed => Done PNone
        | Failed e => Raised e
        end
    | _ => Done PNone
    end
  else Done PNone.

(** The loop of step 6 (lines 228-247), inside the [try]. *)
Fixpoint scan_rows (steps : list step) : outcome pyval :=
  match steps with
  | [] => Done PNone
  | StepPair a output :: rest =>
      if is_query_tool a then
        (rows <- parse_output output ;; convert_rows rows)%exc
      else scan_rows rest
  | StepOther :: rest => scan_rows rest
  end.

(** Step 6 (lines 226-250): the value of [rows] after the [try]. *)
Definition extract_rows (steps : list step) : pyval :=
  match scan_rows steps with
  | Done rows => rows
  | Raised _ => PNone
  end.

End Normalizer.

(** ** Files and paths

    The disk is a finite map from path names to file contents (bytes).  A
    path name stands for the file it names and is not resolved: [a] and
    [./a] are two keys, though the system opens one file for both.  What is
    stated of two path names is therefore stated where different names are
    different files: names without a slash inside one directory, on a file
    system without links.  Directories are not files. *)

Abbreviation FS := (gmap (list N) (list N)) (only parsing).

(** [os.path.join(a, b)] (POSIX) *)
Definition path_join (a b : pystr) : pystr :=
  if startswith (str "/") b then b
  else if negb (nonempty a) || endswith (str "/") a then a ++ b
  else a ++ str "/" ++ b.

(** [s.rfind(c)]: the last index of [c], or -1. *)
Fixpoint rfind_from (i : Z) (last : Z) (c : char) (s : pystr) : Z :=
  match s with
  | [] => last
  | x :: t => rfind_from (i + 1) (if x =? c then i else last) c t
  end.

Definition rfind (c : char) (s : pystr) : Z := rfind_from 0 (-1) c s.

(** [os.path.splitext(p)[0]] (POSIX): the extension starts at the last dot
    of the last path component, unless only dots come before it there. *)
Definition splitext_root (p : pystr) : pystr :=
  let sepIndex := rfind 0x2F p in
  let dotIndex := rfind 0x2E p in
  if (sepIndex <? dotIndex)%Z then
    let before :=
      drop (Z.to_nat (sepIndex + 1)) (take (Z.to_nat dotIndex) p) in
    if existsb (fun c => negb (c =? 0x2E)) before
    then take (Z.to_nat dotIndex) p
    else p
  else p.

(** [if os.path.exists(p): os.remove(p)]; removing a file that exists
    succeeds. *)
Definition remove_if_exists (p : pystr) (fs : FS) : FS :=
  match fs !! p with
  | Some _ => delete p fs
  | None => fs
  end.

(** [str(e)], as an f-string formats an exception: the message of an
    ordinary exception; for [HTTPException], Starlette's
    ["{status_code}: {detail}"]. *)
Definition exn_str (e : exn) : pystr :=
  match e with
  | HTTPException status detail => decimal status ++ str ": " ++ detail
  | PyError _ message => message
  end.

(** What a handler gives back to the framework: a response body (HTTP 200),
    an [HTTPException] it raised (answered with that status), or any other
    exception that escapes it (answered with status 500 by the framework). *)
Inductive response (A : Type) : Type :=
| OK (body : A)
| HTTPError (status_code : N) (detail : pystr)
| Unhandled (e : exn).
Arguments OK {A} body.
Arguments HTTPError {A} status_code detail.
Arguments Unhandled {A} e.

Definition status {A} (r : response A) : N :=
  match r with
  | OK _ => 200
  | HTTPError s _ => s
  | Unhandled _ => 500
  end.

(** Code that reads and writes the disk and may raise. *)
Definition IO (A : Type) : Type := FS -> FS * outcome A.

Definition ret {A} (a : A) : IO A := fun fs => (fs, Done a).

Definition raise {A} (e : exn) : IO A := fun fs => (fs, Raised e).

Definition bind {A B} (m : IO A) (k : A -> IO B) : IO B :=
  fun fs =>
    match m fs with
    | (fs', Done a) => k a fs'
    | (fs', Raised e) => (fs', Raised e)
    end.

Declare Scope io_scope.
Delimit Scope io_scope with io.
Notation "x <- m ;; k" := (bind m (fun x => k))
  (at level 100, m at next level, right associativity) : io_scope.

(** ** The upload endpoint (main.py, lines 109-166) *)

Record UploadFile : Type := {
  filename : option pystr;
  contents : list N
}.

Record UploadResponse : Type := {
  up_session_id : pystr;
  tables : list pystr;
  message : option pystr
}.

Section Upload.

(** The directory of [main.py]. *)
Variable BASE_DIR : pystr.

Definition UPLOAD_DIR : pystr := path_join BASE_DIR (str "uploads").
Definition DB_DIR : pystr := path_join BASE_DIR (str "databases").

(** Whether [open(path, "wb")] succeeds. *)
Variable writable : pystr -> bool.

(** pandas: a data frame, [read_csv] and [read_excel(sheet_name=None)] on
    the bytes of a file, and [DataFrame.to_sql(..., if_exists="replace")]
    on the store file ([None]: no such file yet), which gives the file as
    it leaves it and may raise, having written a part. *)
Variable DataFrame : Type.
Variable read_csv : list N -> outcome DataFrame.
Variable read_excel : list N -> outcome (list (pystr * DataFrame)).
Variable to_sql :
  pystr -> DataFrame -> option (list N) -> option (list N) * outcome unit.

Definition file_not_found : exn :=
  PyError (str "FileNotFoundError") (str "No such file or directory").

Definition pd_read {A} (reader : list N -> outcome A) (path : pystr)
  : IO A :=
  fun fs =>
    match fs !! path with
    | Some data => (fs, reader data)
    | None => (fs, Raised file_not_found)
    end.

Definition set_file (path : pystr) (data : option (list N)) (fs : FS)
  : FS :=
  match data with
  | Some d => <[path := d]> fs
  | None => delete path fs
  end.

(** [df.to_sql(tn, con=engine, index=False, if_exists="replace")], the
    engine being bound to the store at [db_path]. *)
Definition df_to_sql (db_path tn : pystr) (df : DataFrame) : IO unit :=
  fun fs =>
    let '(data, r) := to_sql tn df (fs !! db_path) in
    (set_file db_path data fs, r).

(** The loop over the sheets of a workbook (lines 147-151). *)
Fixpoint ingest_sheets (db_path : pystr) (xls : list (pystr * DataFrame))
    (tables : list pystr) : IO (list pystr) :=
  match xls with
  | [] => ret tables
  | (sheet_name, df) :: rest =>
      let tn := _safe_table_name sheet_name in
      (_ <- df_to_sql db_path tn df ;;
       ingest_sheets db_path rest (tables ++ [tn]))%io
  end.

Definition unsupported : exn :=
  HTTPException 400 (str "Only CSV and Excel Files are supported").

Definition is_csv (filename : pystr) : bool :=
  endswith (str ".csv") (lower filename).

Definition is_excel (filename : pystr) : bool :=
  endswith (str ".xls") (lower filename)
  || endswith (str ".xlsx") (lower filename).

(** The body of the [try] (lines 136-154).  [create_engine] only binds the
    engine to the store path; the store file is written by [to_sql]. *)
Definition ingest (filename saved_path db_path : pystr)
  : IO (list pystr) :=
  if is_csv filename then
    (df <- pd_read read_csv saved_path ;;
     let table_name := _safe_table_name (splitext_root filename) in
     _ <- df_to_sql db_path table_name df ;;
     ret [table_name])%io
  else if is_excel filename then
    (xls <- pd_read read_excel saved_path ;;
     ingest_sheets db_path xls [])%io
  else raise unsupported.

Definition saved_path_of (session_id filename : pystr) : pystr :=
  path_join UPLOAD_DIR (session_id ++ str "_" ++ filename).

Definition db_path_of (session_id : pystr) : pystr :=
  path_join DB_DIR (session_id ++ str ".db").

Definition os_error : exn :=
  PyError (str "OSError") (str "cannot open file").

(** [upload_file]; [session_id] is the value of [uuid4().hex]. *)
Definition upload_file (session_id : pystr) (file : UploadFile) (fs : FS)
  : FS * response UploadResponse :=
  match filename file with
  | None => (fs, HTTPError 400 (str "Missing Files.."))
  | Some [] => (fs, HTTPError 400 (str "Missing Files.."))
  | Some filename =>
      let saved_path := saved_path_of session_id filename in
      let db_path := db_path_of session_id in
      if writable saved_path then
        let fs := <[saved_path := contents file]> fs in
        match ingest filename saved_path db_path fs with
        | (fs, Done tables) =>
            (fs, OK {| up_session_id := session_id;
                       tables := tables;
                       message :=
                         Some (str "Files processed into SQLite DB.") |})
        | (fs, Raised e) =>
            let fs := remove_if_exists saved_path fs in
            let fs := remove_if_exists db_path fs in
            (fs, HTTPError 500 (str "Error processing file: " ++ exn_str e))
        end
      else (fs, Unhandled os_error)
  end.

End Upload.

(** ** The ask endpoint (main.py, lines 173-258) *)

Record QueryRequest : Type := {
  session_id : pystr;
  question : pystr;
  top_k : Z
}.

(** The dictionary [agent.invoke] returns, read with [result.get]. *)
Record AgentResult : Type := {
  output : option pyval;
  intermediate_steps : option (list step)
}.

Record QueryResponse : Type := {
  answer : pyval;
  sql_queries : list pyval;
  rows : pyval;
  raw_agent_output : AgentResult
}.

(** A run of the agent: it ends with a result or an exception, or it calls
    one of the tools of the toolkit on the store and goes on from the tool's
    output.  Which calls it makes is its own business. *)
Inductive agent_run : Type :=
| Finish (result : AgentResult)
| Abort (e : exn)
| UseTool (tool_name tool_arg : pystr) (k : pystr -> agent_run).

(** The connection string of line 195. *)
Definition store_uri (db_path : pystr) : pystr :=
  str "sqlite:///file:" ++ db_path ++ str "?mode=ro&uri=true".

(** The argument of [agent.invoke] (line 209): [{"input": query.question}]. *)
Definition agent_input (query : QueryRequest) : list (pystr * pyval) :=
  [(str "input", PStr (question query))].

Section Ask.

Variable BASE_DIR : pystr.

(** [ast.literal_eval]. *)
Variable literal_eval : pystr -> eval_result.

(** The engine.  [Conn] is what a connection holds of its own between two
    statements (the databases attached to it, for instance).
    [SQLDatabase.from_uri] on a connection string and the bytes of the
    store (with the construction of the model, toolkit and agent, lines
    195-205) opens the connection or raises.  A tool of the toolkit, run
    through the connection opened with that string, may change the
    connection and any file the engine can reach, and gives its output. *)
Variable Conn : Type.
Variable connect : pystr -> list N -> outcome Conn.
Variable run_tool :
  pystr -> Conn -> pystr -> pystr -> FS -> Conn * FS * pystr.

(** The agent [create_sql_agent] builds, on the argument of [invoke]: the
    run it makes. *)
Variable agent : list (pystr * pyval) -> agent_run.

(** Whether pydantic accepts the fields given to [QueryResponse]. *)
Variable validates : QueryResponse -> bool.

Fixpoint exec_agent (uri : pystr) (a : agent_run) (conn : Conn) (fs : FS)
  : FS * outcome AgentResult :=
  match a with
  | Finish result => (fs, Done result)
  | Abort e => (fs, Raised e)
  | UseTool t arg k =>
      let '(conn', fs', out) := run_tool uri conn t arg fs in
      exec_agent uri (k out) conn' fs'
  end.

Definition validation_error : exn :=
  PyError (str "ValidationError") (str "validation error for QueryResponse").

(** Steps 5 to 7 (lines 213-258). *)
Definition respond (result : AgentResult) : response QueryResponse :=
  let steps := default [] (intermediate_steps result) in
  let resp := {| answer := default (PStr []) (output result);
                 sql_queries := sql_queries_of steps;
                 rows := extract_rows literal_eval steps;
                 raw_agent_output := result |} in
  if validates resp then OK resp else Unhandled validation_error.

Definition ask_question (query : QueryRequest) (fs : FS)
  : FS * response QueryResponse :=
  let db_path := db_path_of BASE_DIR (session_id query) in
  match fs !! db_path with
  | None => (fs, HTTPError 404 (str "Session not found"))
  | Some db =>
      let uri := store_uri db_path in
      match connect uri db with
      | Raised e => (fs, Unhandled e)
      | Done conn =>
          match exec_agent uri (agent (agent_input query)) conn fs with
          | (fs', Raised e) =>
              (fs',
               HTTPError 500 (str "Agent execution failed: " ++ exn_str e))
          | (fs', Done result) => (fs', respond result)
          end
      end
  end.

End Ask.

(** ** Definitions for the statements *)

(** An entry the loops of steps 5 and 6 act on: a pair whose tool is the
    query tool. *)
Definition query_step (st : step) : bool :=
  match st with
  | StepPair a _ => is_query_tool a
  | StepOther => false
  end.

(** The items of a row, when it is iterable. *)
Definition items_of (r : pyval) : list pyval := default [] (iter_items r).

Section NormalizerSpec.

Variable literal_eval : pystr -> eval_result.

(** The rows as section 4.5 words them: the entry that is parsed is the
    first query entry whose output is a string that, trimmed, begins with
    [[]; query entries with another output are passed over. *)
Fixpoint scan_rows_spec (steps : list step) : outcome pyval :=
  match steps with
  | [] => Done PNone
  | StepPair a output :: rest =>
      if is_query_tool a && looks_like_rows output then
        (rows <- parse_output literal_eval output ;; convert_rows rows)%exc
      else scan_rows_spec rest
  | StepOther :: rest => scan_rows_spec rest
  end.

Definition extract_rows_spec (steps : list step) : pyval :=
  match scan_rows_spec steps with
  | Done rows => rows
  | Raised _ => PNone
  end.

End NormalizerSpec.

(** ** Stand-ins for the collaborators, for the examples *)

(** An evaluator that knows four literals, with the values Python gives
    them, and takes every other string for malformed. *)
Definition literal_eval_table (s : pystr) : eval_result :=
  if decide (s = str "[(1, 'a'), (2, 'b')]") then
    Evaluated (PList [PTuple [PInt 1; PStr (str "a")];
                      PTuple [PInt 2; PStr (str "b")]])
  else if decide (s = str "[(1,)]") then Evaluated (PList [PTuple [PInt 1]])
  else if decide (s = str "[(1,), 2]") then
    Evaluated (PList [PTuple [PInt 1]; PInt 2])
  else if decide (s = str "[]") then Evaluated (PList [])
  else Malformed.

(** An [AgentAction] of the query tool. *)
Definition query_action (sql : string) : action :=
  {| tool := Some (PStr sql_db_query); tool_input := Some (PStr (str sql)) |}.

Fixpoint drop_prefix (p s : pystr) : option pystr :=
  match p, s with
  | [], _ => Some s
  | a :: p', b :: s' => if a =? b then drop_prefix p' s' else None
  | _ :: _, [] => None
  end.

Definition drop_suffix (p s : pystr) : option pystr :=
  match drop_prefix (rev p) (rev s) with
  | Some r => Some (rev r)
  | None => None
  end.

(** A stand-in for SQLite behind a connection opened with [mode=ro], as far
    as the examples go.  The connection holds the path of the file attached
    to it as [w], if any.  A [SELECT] returns two rows.  A statement that
    writes the main database is refused.  [ATTACH DATABASE 'file:p?mode=rw'
    AS w] is accepted, as SQLite accepts it on a read-only connection, and
    [DROP TABLE w.t] then rewrites the attached file. *)
Definition sqlite_connect (uri db : pystr) : outcome (option (list N)) :=
  Done None.

Definition sqlite_tool (uri : pystr) (conn : option (list N))
    (tool_name arg : pystr) (fs : FS) : option (list N) * FS * pystr :=
  match drop_prefix (str "ATTACH DATABASE 'file:") arg with
  | Some rest =>
      match drop_suffix (str "?mode=rw' AS w") rest with
      | Some p => (Some p, fs, str "")
      | None => (conn, fs, str "Error: near ATTACH: syntax error")
      end
  | None =>
      if bool_decide (arg = str "DROP TABLE w.t") then
        match conn with
        | Some p =>
            match fs !! p with
            | Some _ => (conn, <[p := str "SQLite format 3"]> fs, str "")
            | None => (conn, fs, str "Error: unable to open database file")
            end
        | None => (conn, fs, str "Error: no such table: w.t")
        end
      else if startswith (str "SELECT") arg then
        (conn, fs, str "[(1, 'a'), (2, 'b')]")
      else (conn, fs, str "Error: attempt to write a readonly database")
  end.



(** An agent that tries to drop a table and reports what it was told. *)
Definition dropping_agent (input : list (pystr * pyval)) : agent_run :=
  UseTool sql_db_query (str "DROP TABLE t")
    (fun out =>
       Finish {| output := Some (PStr out);
                 intermediate_steps :=
                   Some [StepPair (query_action "DROP TABLE t")
                                  (PStr out)] |}).

Definition accepts_all (r : QueryResponse) : bool := true.

(** An agent that runs one query and reports its output. *)
Definition querying_agent (input : list (pystr * pyval)) : agent_run :=
  UseTool sql_db_query (str "SELECT id, name FROM t")
    (fun out =>
       Finish {| output := Some (PStr (str "Two rows."));
                 intermediate_steps :=
                   Some [StepPair (query_action "SELECT id, name FROM t")
                                  (PStr out)] |}).

(** A reader that rejects an empty file, a workbook reader that always
    fails, and a writer that fails after it wrote a part of the store. *)
Definition csv_reader (data : list N) : outcome (list N) :=
  match data with
  | [] => Raised (PyError (str "EmptyDataError")
                          (str "No columns to parse from file"))
  | _ => Done data
  end.

Definition no_excel (data : list N) : outcome (list (list N * list N)) :=
  Raised (PyError (str "ImportError") (str "Missing optional dependency")).

Definition failing_to_sql (tn df : list N) (db : option (list N))
  : option (list N) * outcome unit :=
  (Some (str "SQLite format 3"),
   Raised (PyError (str "OperationalError") (str "disk I/O error"))).

Definition always_writable (path : pystr) : bool := true.

(** A writer that appends the table name to the store file, and a workbook
    reader that finds two sheets of the same data. *)
Definition appending_to_sql (tn df : list N) (db : option (list N))
  : option (list N) * outcome unit :=
  (Some (default [] db ++ tn), Done tt).

Definition two_sheets (data : list N) : outcome (list (list N * list N)) :=
  Done [(str "Sheet 1", data); (str "2nd Sheet", data)].

(** What [os.path.join] puts before a name that does not begin with a
    slash: the directory, closed by a slash unless it is empty or has one. *)
Definition dir_prefix (a : pystr) : pystr :=
  if negb (nonempty a) || endswith (str "/") a then a else a ++ str "/".

(** An agent that runs one query and then fails. *)
Definition failing_agent (input : list (pystr * pyval)) : agent_run :=
  UseTool sql_db_query (str "SELECT 1")
    (fun out => Abort (PyError (str "ResourceExhausted") (str "quota exceeded"))).

(** The two endpoints on a server installed in [/srv], with the stand-ins
    above. *)
Definition srv_upload (sid : pystr) (file : UploadFile) (fs : FS)
  : FS * response UploadResponse :=
  upload_file (str "/srv") always_writable (list N) csv_reader two_sheets
    appending_to_sql sid file fs.

Definition sales_csv : UploadFile :=
  {| filename := Some (str "2024 Sales.csv"); contents := str "a,b" |}.

Definition book_xlsx : UploadFile :=
  {| filename := Some (str "Book.XLSX"); contents := str "PK" |}.

(** * Properties *)

(** ** Examples *)

Example safe_2024_sales :
  _safe_table_name (str "2024 Sales") = str "t_2024_sales".
Proof. reflexivity. Qed.

Example splitext_sales :
  splitext_root (str "2024 Sales.csv") = str "2024 Sales".
Proof. reflexivity. Qed.

Example splitext_hidden : splitext_root (str ".csv") = str ".csv".
Proof. reflexivity. Qed.

(** ** Characters *)

Ltac char_prop :=
  unfold is_identifier, is_word, is_digit, isspace, in_range, underscore in *;
  repeat (progress rewrite ?andb_true_iff, ?orb_true_iff, ?N.leb_le,
                    ?N.eqb_eq, ?N.ltb_lt in * ).

Ltac char_false := apply not_true_iff_false; char_prop; lia.

Lemma word_not_space c : is_word c = true -> isspace c = false.
Proof. intros H. char_prop. char_false. Qed.

Lemma word_lower c : is_word c = true -> lower_char c = [c].
Proof.
  intros H. unfold lower_char.
  assert (in_range 0x41 0x5A c = false) as -> by (char_prop; char_false).
  assert ((c =? 0x130) = false) as -> by (char_prop; char_false).
  assert ((c =? 0x212A) = false) as -> by (char_prop; char_false).
  reflexivity.
Qed.

Lemma word_re_digit c : is_word c = true -> re_digit c = is_digit c.
Proof.
  intros H. unfold re_digit.
  assert ((c <? 0x80) = true) as -> by (char_prop; lia).
  reflexivity.
Qed.

Lemma word_letter c :
  is_word c = true -> is_digit c = false ->
  in_range 0x61 0x7A c || (c =? 0x5F) = true.
Proof.
  unfold is_word. destruct (is_digit c); [discriminate | auto].
Qed.

(** ** Strings made of [[0-9a-z_]] only *)

Lemma lstrip_head c t : isspace c = false -> lstrip (c :: t) = c :: t.
Proof. intros H. simpl. now rewrite H. Qed.

Lemma forallb_rev {A} (f : A -> bool) l :
  forallb f l = true -> forallb f (rev l) = true.
Proof.
  rewrite !forallb_forall. intros H x Hx. apply H. now apply in_rev.
Qed.

Lemma lstrip_words s : forallb is_word s = true -> lstrip s = s.
Proof.
  destruct s as [|c t]; [reflexivity|]. simpl.
  rewrite andb_true_iff. intros [Hc _].
  now rewrite (word_not_space c Hc).
Qed.

Lemma strip_words s : forallb is_word s = true -> strip s = s.
Proof.
  intros H. unfold strip, rstrip. rewrite (lstrip_words s H).
  rewrite (lstrip_words (rev s)) by now apply forallb_rev.
  apply rev_involutive.
Qed.

Lemma lower_words s : forallb is_word s = true -> lower s = s.
Proof.
  unfold lower. induction s as [|c t IH]; [reflexivity|]. simpl.
  rewrite andb_true_iff. intros [Hc Ht].
  rewrite (word_lower c Hc), (IH Ht). reflexivity.
Qed.

Lemma re_sub_words s : forallb is_word s = true -> re_sub_from false s = s.
Proof.
  induction s as [|c t IH]; [reflexivity|]. simpl.
  rewrite andb_true_iff. intros [Hc Ht]. rewrite Hc, (IH Ht). reflexivity.
Qed.

(** The substitution leaves characters of the class only. *)
Lemma re_sub_from_words b s : forallb is_word (re_sub_from b s) = true.
Proof.
  revert b. induction s as [|c t IH]; intros b; [reflexivity|]. simpl.
  destruct (is_word c) eqn:Hc.
  - simpl. now rewrite Hc, IH.
  - destruct b; simpl; now rewrite ?IH.
Qed.

Lemma words_match_digit s :
  forallb is_word s = true -> re_match_digit s = begins_with_digit s.
Proof.
  destruct s as [|c t]; [reflexivity|]. simpl.
  rewrite andb_true_iff. intros [Hc _]. now apply word_re_digit.
Qed.

(** ** The substitution replaces maximal runs *)

Lemma runs_head c t :
  exists r rs, runs (c :: t) = (is_word c, c :: r) :: rs.
Proof.
  simpl. destruct (runs t) as [|[w r] rs]; [now eexists _, _|].
  destruct (Bool.eqb w (is_word c)) eqn:E.
  - apply eqb_prop in E. subst w. now eexists _, _.
  - now eexists _, _.
Qed.

Lemma replace_runs_cons c t :
  replace_runs (c :: t) =
  if is_word c then c :: replace_runs t
  else match t with
       | d :: _ => if is_word d then underscore :: replace_runs t
                   else replace_runs t
       | [] => [underscore]
       end.
Proof.
  unfold replace_runs. destruct t as [|d t'].
  - simpl. unfold replace_run. simpl. now destruct (is_word c).
  - destruct (runs_head d t') as (r & rs & E).
    change (runs (c :: d :: t')) with
      (match runs (d :: t') with
       | (w, r) :: rs =>
           if Bool.eqb w (is_word c) then (w, c :: r) :: rs
           else (is_word c, [c]) :: (w, r) :: rs
       | [] => [(is_word c, [c])]
       end).
    rewrite E.
    destruct (is_word c), (is_word d); simpl; reflexivity.
Qed.

Lemma re_sub_from_runs s :
  re_sub_from false s = replace_runs s /\
  underscore :: re_sub_from true s =
    match s with
    | d :: _ => if is_word d then underscore :: replace_runs s
                else replace_runs s
    | [] => [underscore]
    end.
Proof.
  induction s as [|c t [IH1 IH2]]; [split; reflexivity|].
  rewrite replace_runs_cons. simpl.
  destruct (is_word c); rewrite ?IH1; auto.
Qed.

Lemma re_sub_replace_runs s : re_sub_nonword s = replace_runs s.
Proof. apply re_sub_from_runs. Qed.

(** ** The sanitizer *)

Lemma safe_table_name_identifier s :
  is_identifier (_safe_table_name s) = true.
Proof.
  unfold _safe_table_name, re_sub_nonword.
  pose proof (re_sub_from_words false (lower (strip s))) as Hw.
  destruct (re_sub_from false (lower (strip s))) as [|c t] eqn:E.
  - reflexivity.
  - simpl. simpl in Hw. apply andb_true_iff in Hw as [Hc Ht].
    rewrite (word_re_digit c Hc).
    destruct (is_digit c) eqn:Hd.
    + simpl. now rewrite Hc, Ht.
    + simpl. now rewrite (word_letter c Hc Hd), Ht.
Qed.

Lemma identifier_words s :
  is_identifier s = true ->
  forallb is_word s = true /\ begins_with_digit s = false /\ s <> [].
Proof.
  destruct s as [|c t]; [discriminate|]. simpl.
  rewrite andb_true_iff. intros [Hc Ht]. rewrite Ht.
  split; [|split; [|discriminate]].
  - rewrite andb_true_r. char_prop. lia.
  - char_prop. char_false.
Qed.

Lemma safe_table_name_fixes s :
  is_identifier s = true -> _safe_table_name s = s.
Proof.
  intros H. apply identifier_words in H as (Hw & Hd & Hne).
  unfold _safe_table_name, re_sub_nonword.
  rewrite (strip_words s Hw), (lower_words s Hw), (re_sub_words s Hw).
  rewrite (words_match_digit s Hw), Hd.
  destruct s; [contradiction | reflexivity].
Qed.

(** C7.  For every string [s], the table name [_safe_table_name s] is not
    empty, matches [^[a-z_][a-z0-9_]*$], and sanitizing it again gives the
    same name. *)
Theorem safe_table_name_valid_idempotent (s : list N) :
  _safe_table_name s <> []
  /\ is_identifier (_safe_table_name s) = true
  /\ _safe_table_name (_safe_table_name s) = _safe_table_name s.
Proof.
  pose proof (safe_table_name_identifier s) as H.
  split; [|split]; auto.
  - intros E. rewrite E in H. discriminate.
  - now apply safe_table_name_fixes.
Qed.

(** C4, as stated, fails: the source strips the name before it lowercases
    it, so white space around the name leaves no underscore. *)
Lemma sanitize_spec_differs_on_padding :
  _safe_table_name (str " abc ") = str "abc"
  /\ sanitize_spec (str " abc ") = str "_abc_"
  /\ _safe_table_name (str " abc ") <> sanitize_spec (str " abc ").
Proof. split; [|split]; [reflexivity | reflexivity | discriminate]. Qed.

(** C4, amended.  For every string [s], [_safe_table_name s] is the result
    of the steps of the specification (lowercase, one underscore for each
    maximal run outside [[0-9a-z_]], the prefix [t_] before a digit, the
    fallback [table1]) applied to [s] with its leading and trailing white
    space removed. *)
Theorem safe_table_name_is_spec_after_strip (s : list N) :
  _safe_table_name s = sanitize_spec (strip s).
Proof.
  unfold _safe_table_name, sanitize_spec.
  rewrite re_sub_replace_runs.
  rewrite words_match_digit; [reflexivity|].
  rewrite <- re_sub_replace_runs. apply re_sub_from_words.
Qed.

(** ** The result normalizer *)

Lemma str_inj s1 s2 : str s1 = str s2 -> s1 = s2.
Proof.
  unfold str. intros H.
  rewrite <- (string_of_list_ascii_of_string s1).
  rewrite <- (string_of_list_ascii_of_string s2). f_equal.
  revert H. generalize (list_ascii_of_string s1) (list_ascii_of_string s2).
  induction l as [|a l IH]; intros [|b l'] H; try discriminate; auto.
  simpl in H. injection H as Hab Hl. f_equal; [|now apply IH].
  rewrite <- (ascii_N_embedding a), <- (ascii_N_embedding b). now f_equal.
Qed.

Lemma decimal_inj n m : decimal n = decimal m -> n = m.
Proof.
  unfold decimal. intros H. apply str_inj in H.
  assert (N.to_uint n = N.to_uint m) as E.
  { apply (f_equal NilEmpty.uint_of_string) in H.
    rewrite !NilEmpty.usu in H. congruence. }
  rewrite <- (DecimalN.Unsigned.of_to n), <- (DecimalN.Unsigned.of_to m).
  now f_equal.
Qed.

Lemma NoDup_map_inj {A B} (f : A -> B) l :
  (forall x y, f x = f y -> x = y) -> NoDup l -> NoDup (map f l).
Proof.
  intros Hf. induction 1 as [|x l Hx _ IH]; simpl; constructor; [|exact IH].
  intros Hin. apply list_elem_of_In, in_map_iff in Hin as (y & Hy & Hin).
  apply Hf in Hy. subst y. now apply Hx, list_elem_of_In.
Qed.

Lemma column_names_NoDup n : NoDup (column_names n).
Proof.
  unfold column_names. apply NoDup_map_inj; [|apply NoDup_seq].
  intros i j H. apply app_inv_head in H. apply decimal_inj in H. lia.
Qed.

Lemma column_names_length n : length (column_names n) = n.
Proof. unfold column_names. now rewrite length_map, List.length_seq. Qed.

Lemma dict_set_fresh k v d :
  ~ In k (map fst d) -> dict_set k v d = d ++ [(k, v)].
Proof.
  induction d as [|[k' v'] t IH]; intros H; [reflexivity|]. simpl in *.
  destruct (decide (k' = k)) as [->|_]; [tauto|]. rewrite IH; tauto.
Qed.

Lemma fold_dict_set_NoDup pairs acc :
  NoDup (map fst (acc ++ pairs)) ->
  fold_left (fun d kv => dict_set (fst kv) (snd kv) d) pairs acc
  = acc ++ pairs.
Proof.
  revert acc. induction pairs as [|[k v] t IH]; intros acc H; simpl.
  - now rewrite app_nil_r.
  - rewrite dict_set_fresh.
    + rewrite IH; rewrite <- app_assoc; [reflexivity | exact H].
    + rewrite map_app in H. apply NoDup_app in H as (_ & H & _).
      intros Hin. apply (H k); [now apply list_elem_of_In | left].
Qed.

Lemma zip_keys_NoDup (cols : list (list N)) (xs : list pyval) :
  NoDup cols -> NoDup (map fst (zip cols xs)).
Proof.
  intros H. revert xs. induction H as [|c cols Hc Hn IH]; intros xs.
  - constructor.
  - destruct xs as [|x xs]; [constructor|]. simpl. constructor; [|apply IH].
    intros Hin. apply Hc. apply list_elem_of_In.
    apply list_elem_of_In in Hin. clear -Hin. revert xs Hin.
    induction cols as [|c' cols IH]; intros [|x xs] Hin; simpl in *;
      try contradiction.
    destruct Hin as [->|Hin]; [now left | right; eauto].
Qed.

(** The dictionary of a row has one entry per column, in order. *)
Lemma dict_of_columns n xs :
  dict_of (zip (column_names n) xs) = zip (column_names n) xs.
Proof.
  unfold dict_of. rewrite fold_dict_set_NoDup; [reflexivity|].
  apply zip_keys_NoDup, column_names_NoDup.
Qed.

Lemma comprehension_records cols (l : list pyval) :
  Forall (fun r => is_Some (iter_items r)) l ->
  comprehension (record_of cols) l
  = Done (map (fun r => PRecord (dict_of (zip cols (items_of r)))) l).
Proof.
  induction 1 as [|r l [xs Hr] _ IH]; [reflexivity|]. simpl.
  rewrite IH. unfold record_of, items_of. rewrite Hr. reflexivity.
Qed.

Lemma scan_rows_skip literal_eval pre l :
  Forall (fun st => query_step st = false) pre ->
  scan_rows literal_eval (pre ++ l) = scan_rows literal_eval l.
Proof.
  induction 1 as [|st pre Hst _ IH]; [reflexivity|]. simpl.
  destruct st as [a out|]; [|exact IH]. simpl in Hst. now rewrite Hst.
Qed.

Example records_of_two_rows :
  convert_rows (PList [PTuple [PInt 1; PStr (str "a")];
                       PTuple [PInt 2; PStr (str "b")]])
  = Done (PList [PRecord [(str "col_1", PInt 1); (str "col_2", PStr (str "a"))];
                 PRecord [(str "col_1", PInt 2); (str "col_2", PStr (str "b"))]]).
Proof. reflexivity. Qed.

(** C3, as stated, fails: the loop ends at the first query entry whatever
    its output is, so a second query entry that holds a list of rows is not
    reached and [rows] stays [None]. *)
Lemma rows_not_taken_from_later_entry :
  let trace := [StepPair (query_action "SELECT x FROM t")
                         (PStr (str "Error: no such table: t"));
                StepPair (query_action "SELECT x FROM u")
                         (PStr (str "[(1,)]"))] in
  extract_rows literal_eval_table trace = PNone
  /\ extract_rows_spec literal_eval_table trace
     = PList [PRecord [(str "col_1", PInt 1)]]
  /\ extract_rows literal_eval_table trace
     <> extract_rows_spec literal_eval_table trace.
Proof. split; [|split]; [reflexivity | reflexivity | discriminate]. Qed.

(** C3, amended.  For every agent trace, [rows] is derived from the first
    query-tool entry of the trace and from no other: when the output of that
    entry is a string that, trimmed, begins with [[], that output is the one
    parsed into rows; when it is not, [rows] is [None], whatever the later
    entries hold. *)
Theorem rows_from_first_query_entry
    (literal_eval : list N -> eval_result)
    (pre rest : list step) (a : action) (out : pyval)
    (Hpre : Forall (fun st => query_step st = false) pre)
    (Ha : is_query_tool a = true) :
  extract_rows literal_eval (pre ++ StepPair a out :: rest)
  = extract_rows literal_eval [StepPair a out]
  /\ (looks_like_rows out = false ->
      extract_rows literal_eval (pre ++ StepPair a out :: rest) = PNone)
  /\ (forall s v,
        out = PStr s -> looks_like_rows out = true ->
        literal_eval s = Evaluated v ->
        extract_rows literal_eval (pre ++ StepPair a out :: rest)
        = match convert_rows v with Done rows => rows | Raised _ => PNone end).
Proof.
  unfold extract_rows. rewrite (scan_rows_skip _ _ _ Hpre). simpl.
  rewrite Ha. split; [reflexivity|split].
  - intros Hl. unfold parse_output. now rewrite Hl.
  - intros s v -> Hl Hv. unfold parse_output. rewrite Hl, Hv. reflexivity.
Qed.

Lemma rows_from_first_query_entry_witness :
  extract_rows literal_eval_table
    ([StepOther] ++ StepPair (query_action "SELECT 1") (PStr (str "oops"))
                 :: [StepPair (query_action "SELECT 1") (PStr (str "[(1,)]"))])
  = PNone.
Proof.
  refine (proj1 (proj2 (rows_from_first_query_entry literal_eval_table
            [StepOther] _ (query_action "SELECT 1") (PStr (str "oops")) _ _)) _).
  - repeat constructor.
  - reflexivity.
  - reflexivity.
Defined.

(** The response carries the rows of step 6. *)
Lemma respond_rows literal_eval validates result resp :
  respond literal_eval validates result = OK resp ->
  rows resp
  = extract_rows literal_eval (default [] (intermediate_steps result)).
Proof.
  unfold respond. destruct (validates _); [|discriminate].
  intros H. injection H as <-. reflexivity.
Qed.

(** C10.  When the output inspected (that of the first query entry) is a
    string that, trimmed, begins with [[] and parses to the empty list,
    [rows] is the empty list, not [None], and so is the [rows] field of the
    response. *)
Theorem rows_of_empty_result
    (literal_eval : pystr -> eval_result) (validates : QueryResponse -> bool)
    (pre rest : list step) (a : action) (s : pystr)
    (Hpre : Forall (fun st => query_step st = false) pre)
    (Ha : is_query_tool a = true)
    (Hl : looks_like_rows (PStr s) = true)
    (Hs : literal_eval s = Evaluated (PList [])) :
  let steps := pre ++ StepPair a (PStr s) :: rest in
  extract_rows literal_eval steps = PList []
  /\ extract_rows literal_eval steps <> PNone
  /\ (forall result resp,
        intermediate_steps result = Some steps ->
        respond literal_eval validates result = OK resp ->
        rows resp = PList []).
Proof.
  intros steps.
  assert (extract_rows literal_eval steps = PList []) as E.
  { unfold steps, extract_rows. rewrite (scan_rows_skip _ _ _ Hpre). simpl.
    rewrite Ha. unfold parse_output. rewrite Hl, Hs. reflexivity. }
  split; [exact E|split].
  - rewrite E. discriminate.
  - intros result resp Hsteps Hresp.
    rewrite (respond_rows _ _ _ _ Hresp), Hsteps. exact E.
Qed.

Lemma rows_of_empty_result_witness :
  let result :=
    {| output := Some (PStr (str "There are no such rows."));
       intermediate_steps :=
         Some ([] ++ StepPair (query_action "SELECT x FROM t WHERE 1 = 0")
                              (PStr (str "[]")) :: []) |} in
  exists resp,
    respond literal_eval_table accepts_all result = OK resp
    /\ rows resp = PList [].
Proof.
  intros result. eexists. split; [reflexivity|].
  refine (proj2 (proj2 (rows_of_empty_result literal_eval_table accepts_all
            [] [] (query_action "SELECT x FROM t WHERE 1 = 0") (str "[]")
            _ _ _ _)) result _ eq_refl eq_refl).
  - constructor.
  - reflexivity.
  - reflexivity.
  - reflexivity.
Defined.

(** A row that is not iterable ends the conversion with a [TypeError]. *)
Lemma comprehension_scalar cols (l : list pyval) :
  Exists (fun r => iter_items r = None) l ->
  comprehension (record_of cols) l = Raised type_error.
Proof.
  induction l as [|r l IH]; intros H; [inversion H|]. simpl.
  unfold record_of at 1. destruct (iter_items r) as [xs|] eqn:Hr.
  - inversion H as [? ? Hn|? ? Hl]; subst; [congruence|].
    cbn [obind]. now rewrite (IH Hl).
  - reflexivity.
Qed.

(** C8, as stated, fails: only the first element is tested, and a later
    element that is not iterable makes the conversion raise; the exception is
    caught and [rows] is [None]. *)
Lemma rows_lost_on_scalar_element :
  convert_rows (PList [PTuple [PInt 1]; PInt 2]) = Raised type_error
  /\ extract_rows literal_eval_table
       [StepPair (query_action "SELECT 1") (PStr (str "[(1,), 2]"))] = PNone.
Proof. split; reflexivity. Qed.

(** C8, amended.  For every parsed query output that is a non-empty list
    whose first element is a list or tuple of length N and whose elements
    are all iterable, the normalizer makes the column names col_1..col_N and
    turns every row into the name-to-value record that pairs them by
    position with the items of the row; a list whose first element is a
    mapping is passed through unchanged. *)
Theorem convert_rows_records (r0 : pyval) (rest : list pyval) :
  (is_list_or_tuple r0 = true ->
   Forall (fun r => is_Some (iter_items r)) (r0 :: rest) ->
   convert_rows (PList (r0 :: rest))
   = Done (PList (map (fun r =>
                         PRecord (zip (column_names (length (seq_items r0)))
                                      (items_of r)))
                      (r0 :: rest))))
  /\ (forall kv, r0 = PDict kv ->
      convert_rows (PList (r0 :: rest)) = Done (PList (r0 :: rest))).
Proof.
  split.
  - intros H0 Hit. unfold convert_rows.
    cbn [truthy nonempty is_list seq_items length andb Nat.ltb Nat.leb].
    rewrite H0. rewrite (comprehension_records _ _ Hit).
    cbn [obind]. do 2 f_equal. apply map_ext. intros r.
    now rewrite dict_of_columns.
  - intros kv ->. reflexivity.
Qed.

Lemma convert_rows_records_witness :
  convert_rows (PList [PTuple [PInt 1; PStr (str "a")];
                       PTuple [PInt 2; PStr (str "b")]])
  = Done (PList [PRecord [(str "col_1", PInt 1); (str "col_2", PStr (str "a"))];
                 PRecord [(str "col_1", PInt 2); (str "col_2", PStr (str "b"))]]).
Proof.
  refine (proj1 (convert_rows_records (PTuple [PInt 1; PStr (str "a")])
                   [PTuple [PInt 2; PStr (str "b")]]) _ _).
  - reflexivity.
  - repeat constructor; eexists; reflexivity.
Defined.

(** ** The ask endpoint *)

Lemma startswith_app p s : startswith p (p ++ s) = true.
Proof.
  induction p as [|c p IH]; [reflexivity|]. simpl.
  now rewrite N.eqb_refl, IH.
Qed.

Lemma endswith_app p s : endswith p (s ++ p) = true.
Proof. unfold endswith. rewrite rev_app_distr. apply startswith_app. Qed.

Section AskProperties.

Variable BASE_DIR : list N.
Variable literal_eval : list N -> eval_result.
Variable Conn : Type.
Variable connect : list N -> list N -> outcome Conn.
Variable run_tool :
  list N -> Conn -> list N -> list N -> FS -> Conn * FS * list N.
Variable agent : list (list N * pyval) -> agent_run.
Variable validates : QueryResponse -> bool.

Local Abbreviation ask :=
  (ask_question BASE_DIR literal_eval Conn connect run_tool agent validates).

(** C1 does not hold of the code: the request's [top_k] never reaches the
    agent.  The argument of [invoke] is made of the question alone, and two
    requests that differ in [top_k] only are answered alike. *)
Theorem ask_ignores_top_k (sid q : list N) (k1 k2 : Z) (fs : FS) :
  agent_input {| session_id := sid; question := q; top_k := k1 |}
  = agent_input {| session_id := sid; question := q; top_k := k2 |}
  /\ ask {| session_id := sid; question := q; top_k := k1 |} fs
     = ask {| session_id := sid; question := q; top_k := k2 |} fs.
Proof. split; reflexivity. Qed.

(** C9.  When no store file exists at the path derived from the session
    id, the request fails with HTTP 404: no exception escapes the handler,
    no response body is produced, and the disk is as it was. *)
Theorem ask_unknown_session (query : QueryRequest) (fs : FS) :
  fs !! db_path_of BASE_DIR (session_id query) = None ->
  ask query fs = (fs, HTTPError 404 (str "Session not found"))
  /\ status (snd (ask query fs)) = 404.
Proof.
  intros H. unfold ask_question. rewrite H. split; reflexivity.
Qed.



End AskProperties.

Lemma ask_unknown_session_witness :
  ask_question (str "/srv") literal_eval_table (option (list N))
    sqlite_connect sqlite_tool dropping_agent accepts_all
    {| session_id := str "0f3a"; question := str "How many rows?";
       top_k := 5 |} ∅
  = (∅, HTTPError 404 (str "Session not found")).
Proof.
  refine (proj1 (ask_unknown_session (str "/srv") literal_eval_table
            (option (list N)) sqlite_connect sqlite_tool dropping_agent
            accepts_all _ ∅ _)).
  reflexivity.
Defined.

Example ask_two_rows :
  let fs : FS :=
    {[ str "/srv/databases/0f3a.db" := str "SQLite format 3" ]} in
  ask_question (str "/srv") literal_eval_table (option (list N))
    sqlite_connect sqlite_tool querying_agent accepts_all
    {| session_id := str "0f3a"; question := str "Who is there?";
       top_k := 5 |} fs
  = (fs,
     OK {| answer := PStr (str "Two rows.");
           sql_queries := [PStr (str "SELECT id, name FROM t")];
           rows :=
             PList [PRecord [(str "col_1", PInt 1);
                             (str "col_2", PStr (str "a"))];
                    PRecord [(str "col_1", PInt 2);
                             (str "col_2", PStr (str "b"))]];
           raw_agent_output :=
             {| output := Some (PStr (str "Two rows."));
                intermediate_steps :=
                  Some [StepPair (query_action "SELECT id, name FROM t")
                          (PStr (str "[(1, 'a'), (2, 'b')]"))] |} |}).
Proof. vm_compute. reflexivity. Qed.




(** ** The upload endpoint *)

Lemma lookup_remove_if_exists (p q : list N) (fs : FS) :
  remove_if_exists p fs !! q = if decide (p = q) then None else fs !! q.
Proof.
  unfold remove_if_exists. destruct (fs !! p) eqn:E.
  - apply lookup_delete.
  - destruct (decide (p = q)) as [<-|]; [exact E | reflexivity].
Qed.

Section UploadProperties.

Variable BASE_DIR : list N.
Variable writable : list N -> bool.
Variable DataFrame : Type.
Variable read_csv : list N -> outcome DataFrame.
Variable read_excel : list N -> outcome (list (list N * DataFrame)).
Variable to_sql :
  list N -> DataFrame -> option (list N) -> option (list N) * outcome unit.

Local Abbreviation upload :=
  (upload_file BASE_DIR writable DataFrame read_csv read_excel to_sql).
Local Abbreviation saved_path := (saved_path_of BASE_DIR).
Local Abbreviation db_path := (db_path_of BASE_DIR).

(** Writing a table touches the store file only. *)
Lemma df_to_sql_frame (db tn : list N) (df : DataFrame)
    (fs : FS) (p : list N) :
  p <> db -> fst (df_to_sql DataFrame to_sql db tn df fs) !! p = fs !! p.
Proof.
  intros Hp. unfold df_to_sql.
  destruct (to_sql tn df (fs !! db)) as [[d|] r]; simpl.
  - now apply lookup_insert_ne.
  - now apply lookup_delete_ne.
Qed.

Lemma ingest_sheets_frame (db : list N) (xls : list (list N * DataFrame))
    (tables : list (list N)) (fs : FS) (p : list N) :
  p <> db ->
  fst (ingest_sheets DataFrame to_sql db xls tables fs) !! p = fs !! p.
Proof.
  intros Hp. revert tables fs.
  induction xls as [|[sheet df] rest IH]; intros tables fs; [reflexivity|].
  simpl. unfold bind.
  pose proof (df_to_sql_frame db (_safe_table_name sheet) df fs p Hp) as Hw.
  destruct (df_to_sql _ _ _ _ _ fs) as [fs1 [[]|e]]; simpl in *.
  - now rewrite IH.
  - exact Hw.
Qed.

Lemma pd_read_frame {A} (reader : list N -> outcome A) (path : list N)
    (fs : FS) :
  fst (pd_read reader path fs) = fs.
Proof. unfold pd_read. now destruct (fs !! path). Qed.

(** The body of the [try] touches the store file only. *)
Lemma ingest_frame (name saved db : list N) (fs : FS)
    (p : list N) :
  p <> db ->
  fst (ingest DataFrame read_csv read_excel to_sql name saved db fs) !! p
  = fs !! p.
Proof.
  intros Hp. unfold ingest.
  destruct (is_csv name); [|destruct (is_excel name)]; [| |reflexivity].
  - unfold bind.
    pose proof (pd_read_frame read_csv saved fs) as Hr.
    destruct (pd_read read_csv saved fs) as [fs1 [df|e]];
      simpl in Hr; subst fs1; [|reflexivity].
    pose proof (df_to_sql_frame db
                  (_safe_table_name (splitext_root name)) df fs p Hp) as Hw.
    destruct (df_to_sql _ _ _ _ _ fs) as [fs1 [[]|e]]; exact Hw.
  - unfold bind.
    pose proof (pd_read_frame read_excel saved fs) as Hr.
    destruct (pd_read read_excel saved fs) as [fs1 [xls|e]];
      simpl in Hr; subst fs1; [|reflexivity].
    now apply ingest_sheets_frame.
Qed.

(** C2 does not hold of the code: the [HTTPException] with status 400 is
    raised inside the [try] and caught by its [except Exception], so a file
    name with another extension is answered with status 500, not 400: once
    the raw copy is written, with the [HTTPException] of line 164. *)
Theorem unsupported_extension_answers_500
    (sid name data : list N) (fs : FS) :
  name <> [] -> is_csv name = false -> is_excel name = false ->
  let r := snd (upload sid {| filename := Some name; contents := data |} fs)
  in
  (writable (saved_path sid name) = true ->
   r = HTTPError 500 (str "Error processing file: " ++ exn_str unsupported))
  /\ status r = 500.
Proof.
  intros Hne Hcsv Hxls. unfold upload_file; simpl.
  destruct name as [|c name]; [contradiction|].
  unfold ingest. rewrite Hcsv, Hxls.
  destruct (writable _); simpl; split; intros; congruence.
Qed.

(** C5.  When the parsing or the writing of the store fails once the raw
    file is saved, the failure is reported with status 500, and by then
    neither the raw copy nor the store file of the session exists; every
    other file is as it was before the upload. *)
Theorem failed_ingestion_leaves_no_file
    (sid name data : list N) (fs fs1 : FS) (e : exn) :
  name <> [] ->
  writable (saved_path sid name) = true ->
  ingest DataFrame read_csv read_excel to_sql name
    (saved_path sid name) (db_path sid) (<[saved_path sid name := data]> fs)
  = (fs1, Raised e) ->
  exists fs',
    upload sid {| filename := Some name; contents := data |} fs
    = (fs', HTTPError 500 (str "Error processing file: " ++ exn_str e))
    /\ fs' !! saved_path sid name = None
    /\ fs' !! db_path sid = None
    /\ (forall p, p <> saved_path sid name -> p <> db_path sid ->
                  fs' !! p = fs !! p).
Proof.
  intros Hne Hw Hing. unfold upload_file; simpl.
  destruct name as [|c name]; [contradiction|].
  rewrite Hw, Hing. eexists. split; [reflexivity|].
  repeat split.
  - rewrite !lookup_remove_if_exists.
    destruct (decide (_ = _)); [reflexivity|].
    now rewrite decide_True.
  - rewrite lookup_remove_if_exists. now rewrite decide_True.
  - intros p Hp1 Hp2. rewrite !lookup_remove_if_exists.
    rewrite !decide_False by congruence.
    pose proof (ingest_frame (c :: name) (saved_path sid (c :: name))
                  (db_path sid) (<[saved_path sid (c :: name) := data]> fs)
                  p Hp2) as Hf.
    rewrite Hing in Hf. simpl in Hf. rewrite Hf.
    now apply lookup_insert_ne.
Qed.

End UploadProperties.

Lemma unsupported_extension_answers_500_witness :
  snd (upload_file (str "/srv") always_writable (list N) csv_reader no_excel
         failing_to_sql (str "0f3a")
         {| filename := Some (str "notes.txt"); contents := str "hello" |} ∅)
  = HTTPError 500
      (str "Error processing file: 400: Only CSV and Excel Files are supported").
Proof.
  refine (proj1 (unsupported_extension_answers_500 (str "/srv") always_writable
            (list N) csv_reader no_excel failing_to_sql (str "0f3a")
            (str "notes.txt") (str "hello") ∅ _ _ _) _).
  - discriminate.
  - reflexivity.
  - reflexivity.
  - reflexivity.
Defined.

Lemma failed_ingestion_leaves_no_file_witness :
  exists fs' : FS,
    upload_file (str "/srv") always_writable (list N) csv_reader no_excel
      failing_to_sql (str "0f3a")
      {| filename := Some (str "sales.csv"); contents := str "a,b" |} ∅
    = (fs', HTTPError 500 (str "Error processing file: disk I/O error"))
    /\ fs' !! str "/srv/uploads/0f3a_sales.csv" = None
    /\ fs' !! str "/srv/databases/0f3a.db" = None.
Proof.
  destruct (failed_ingestion_leaves_no_file (str "/srv") always_writable
              (list N) csv_reader no_excel failing_to_sql (str "0f3a")
              (str "sales.csv") (str "a,b") ∅
              (<[str "/srv/databases/0f3a.db" := str "SQLite format 3"]>
                 (<[str "/srv/uploads/0f3a_sales.csv" := str "a,b"]> ∅))
              (PyError (str "OperationalError") (str "disk I/O error")))
    as (fs' & H1 & H2 & H3 & _).
  - discriminate.
  - reflexivity.
  - unfold ingest. change (is_csv (str "sales.csv")) with true. cbv iota.
    unfold bind, pd_read. rewrite lookup_insert_eq. cbn [csv_reader str].
    unfold df_to_sql. cbn [failing_to_sql set_file]. reflexivity.
  - exists fs'. auto.
Defined.

(** * Further properties *)

(** ** The sanitizer on blank, padded and numbered names *)

Lemma lstrip_spaces_app ws s :
  forallb isspace ws = true -> lstrip (ws ++ s) = lstrip s.
Proof.
  induction ws as [|c ws IH]; [reflexivity|]. simpl.
  rewrite andb_true_iff. intros [Hc Hws]. rewrite Hc. auto.
Qed.

Lemma lstrip_spaces ws : forallb isspace ws = true -> lstrip ws = [].
Proof.
  intros H. rewrite <- (app_nil_r ws). now rewrite lstrip_spaces_app.
Qed.

Lemma rstrip_app_spaces s ws :
  forallb isspace ws = true -> rstrip (s ++ ws) = rstrip s.
Proof.
  intros H. unfold rstrip. rewrite rev_app_distr.
  rewrite lstrip_spaces_app; [reflexivity | now apply forallb_rev].
Qed.

Lemma strip_padding ws s ws' :
  forallb isspace ws = true -> forallb isspace ws' = true ->
  strip (ws ++ s ++ ws') = strip s.
Proof.
  intros H H'. unfold strip. rewrite (lstrip_spaces_app _ _ H).
  induction s as [|c t IH]; simpl.
  - now rewrite (lstrip_spaces _ H').
  - destruct (isspace c); [exact IH|].
    apply (rstrip_app_spaces (c :: t) ws' H').
Qed.

Lemma lstrip_snoc l c :
  isspace c = false -> lstrip (l ++ [c]) = lstrip l ++ [c].
Proof.
  intros Hc. induction l as [|d l IH]; simpl.
  - now rewrite Hc.
  - now destruct (isspace d).
Qed.

Lemma strip_head c t :
  isspace c = false -> strip (c :: t) = c :: rstrip t.
Proof.
  intros Hc. unfold strip, rstrip. rewrite (lstrip_head c t Hc). simpl.
  rewrite (lstrip_snoc (rev t) c Hc), rev_app_distr. reflexivity.
Qed.

(** X1.  A name that is empty or made of white space only gets the fallback
    name [table1]. *)
Theorem safe_table_name_blank (s : pystr) :
  forallb isspace s = true -> _safe_table_name s = str "table1".
Proof.
  intros H. unfold _safe_table_name, strip.
  rewrite (lstrip_spaces s H). reflexivity.
Qed.

Lemma safe_table_name_blank_witness :
  _safe_table_name (str "   ") = str "table1".
Proof. apply (safe_table_name_blank (str "   ")). reflexivity. Defined.

(** X2.  White space before and after a name does not change its table name. *)
Theorem safe_table_name_padding (ws s ws' : pystr) :
  forallb isspace ws = true -> forallb isspace ws' = true ->
  _safe_table_name (ws ++ s ++ ws') = _safe_table_name s.
Proof.
  intros H H'. unfold _safe_table_name. now rewrite strip_padding.
Qed.

Lemma safe_table_name_padding_witness :
  _safe_table_name (str "  " ++ str "Q1 Sales" ++ str " ")
  = _safe_table_name (str "Q1 Sales").
Proof.
  apply (safe_table_name_padding (str "  ") (str "Q1 Sales") (str " "));
    reflexivity.
Defined.

(** X3.  A name that begins with a digit [0-9] comes out as [t_], that
    digit, and the sanitized rest: the rest of the name without its
    trailing white space, in lower case, with one underscore for each run
    of characters outside [[0-9a-z_]]. *)
Theorem safe_table_name_digit_prefix (c : char) (t : pystr) :
  is_digit c = true ->
  _safe_table_name (c :: t)
  = str "t_" ++ c :: re_sub_nonword (lower (rstrip t)).
Proof.
  intros Hd.
  assert (is_word c = true) as Hw by (unfold is_word; now rewrite Hd).
  unfold _safe_table_name, re_sub_nonword.
  rewrite (strip_head c t (word_not_space c Hw)).
  unfold lower. simpl flat_map. rewrite (word_lower c Hw). simpl.
  rewrite Hw. simpl. rewrite (word_re_digit c Hw), Hd. reflexivity.
Qed.

Lemma safe_table_name_digit_prefix_witness :
  _safe_table_name (str "2024 Sales ")
  = str "t_" ++ 0x32 :: re_sub_nonword (lower (rstrip (str "024 Sales "))).
Proof.
  apply (safe_table_name_digit_prefix 0x32 (str "024 Sales ")). reflexivity.
Defined.

(** ** The statements and the rows taken from a trace *)

Lemma sql_queries_of_cons a out rest :
  sql_queries_of (StepPair a out :: rest) =
  match tool_input a with
  | Some inp =>
      if is_query_tool a then inp :: sql_queries_of rest
      else sql_queries_of rest
  | None => sql_queries_of rest
  end.
Proof.
  simpl. unfold is_query_tool.
  destruct (tool a), (tool_input a); reflexivity.
Qed.

(** X4.  The list of statements follows the trace: the statements of a trace
    made of two parts are those of the first part, then those of the
    second, repeated statements included. *)
Theorem sql_queries_of_app (s1 s2 : list step) :
  sql_queries_of (s1 ++ s2) = sql_queries_of s1 ++ sql_queries_of s2.
Proof.
  induction s1 as [|[a out|] s1 IH]; [reflexivity| |exact IH].
  rewrite <- app_comm_cons, !sql_queries_of_cons, IH.
  destruct (tool_input a), (is_query_tool a); reflexivity.
Qed.

(** X5.  A value is among the statements exactly when it is the [tool_input] of
    some entry of the trace whose tool is the query tool. *)
Theorem sql_queries_of_spec (steps : list step) (inp : pyval) :
  In inp (sql_queries_of steps) <->
  exists a out, In (StepPair a out) steps
                /\ is_query_tool a = true /\ tool_input a = Some inp.
Proof.
  induction steps as [|[a out|] steps IH].
  - simpl. split; [tauto | intros (a & out & [] & _)].
  - rewrite sql_queries_of_cons.
    assert (In inp (sql_queries_of steps) ->
            exists a' o', In (StepPair a' o') (StepPair a out :: steps)
                          /\ is_query_tool a' = true
                          /\ tool_input a' = Some inp) as Hold.
    { intros H. apply IH in H as (a' & o' & Hin & H1 & H2).
      exists a', o'. simpl. auto. }
    destruct (tool_input a) as [i|] eqn:Hi;
      [destruct (is_query_tool a) eqn:Hq|]; split.
    + intros [<-|H]; [|auto]. exists a, out. simpl. auto.
    + intros (a' & o' & [E|Hin] & H1 & H2).
      * injection E as <- <-. left. congruence.
      * right. apply IH. eauto.
    + exact Hold.
    + intros (a' & o' & [E|Hin] & H1 & H2).
      * injection E as <- <-. congruence.
      * apply IH. eauto.
    + exact Hold.
    + intros (a' & o' & [E|Hin] & H1 & H2).
      * injection E as <- <-. congruence.
      * apply IH. eauto.
  - simpl. rewrite IH. split.
    + intros (a' & o' & Hin & H); eauto.
    + intros (a' & o' & [E|Hin] & H); [discriminate | eauto].
Qed.

(** X6.  A trace without an entry of the query tool gives no statement and no
    rows. *)
Theorem no_query_no_rows
    (literal_eval : pystr -> eval_result) (steps : list step) :
  Forall (fun st => query_step st = false) steps ->
  sql_queries_of steps = [] /\ extract_rows literal_eval steps = PNone.
Proof.
  induction 1 as [|st steps Hst _ [IH1 IH2]]; [split; reflexivity|].
  unfold extract_rows in *. destruct st as [a out|]; simpl in *.
  - rewrite Hst. destruct (tool a), (tool_input a); auto.
  - auto.
Qed.

Lemma no_query_no_rows_witness :
  extract_rows literal_eval_table
    [StepOther;
     StepPair {| tool := Some (PStr (str "sql_db_list_tables"));
                 tool_input := Some (PStr (str "")) |}
              (PStr (str "[(1,)]"))] = PNone.
Proof.
  refine (proj2 (no_query_no_rows literal_eval_table _ _)).
  repeat constructor.
Defined.

(** X7.  When the output of the first query entry cannot be evaluated, because
    it is malformed or because the evaluator raises, [rows] is [None]: the
    failure does not leave the normalizer. *)
Theorem rows_parse_failure_absorbed
    (literal_eval : pystr -> eval_result)
    (pre rest : list step) (a : action) (s : pystr) :
  Forall (fun st => query_step st = false) pre ->
  is_query_tool a = true ->
  (literal_eval s = Malformed \/ exists e, literal_eval s = Failed e) ->
  extract_rows literal_eval (pre ++ StepPair a (PStr s) :: rest) = PNone.
Proof.
  intros Hpre Ha Hs. unfold extract_rows.
  rewrite (scan_rows_skip _ _ _ Hpre). simpl. rewrite Ha.
  unfold parse_output. destruct (looks_like_rows (PStr s)); [|reflexivity].
  destruct Hs as [->|[e ->]]; reflexivity.
Qed.

Lemma rows_parse_failure_absorbed_witness :
  extract_rows literal_eval_table
    ([] ++ StepPair (query_action "SELECT 1") (PStr (str "[(1, ")) :: [])
  = PNone.
Proof.
  apply (rows_parse_failure_absorbed literal_eval_table [] []
           (query_action "SELECT 1") (str "[(1, ")).
  - constructor.
  - reflexivity.
  - left. reflexivity.
Defined.

(** X8.  [rows] is set only in one way: the first query entry of the trace has
    a string output that, trimmed, begins with [[] and evaluates, and
    [rows] is what the conversion makes of the value. *)
Theorem rows_present_inv
    (literal_eval : pystr -> eval_result) (steps : list step) :
  extract_rows literal_eval steps <> PNone ->
  exists pre a s rest v,
    steps = pre ++ StepPair a (PStr s) :: rest
    /\ Forall (fun st => query_step st = false) pre
    /\ is_query_tool a = true
    /\ looks_like_rows (PStr s) = true
    /\ literal_eval s = Evaluated v
    /\ convert_rows v = Done (extract_rows literal_eval steps).
Proof.
  unfold extract_rows. induction steps as [|st steps IH]; simpl.
  - congruence.
  - destruct st as [a out|].
    + destruct (is_query_tool a) eqn:Ha.
      * intros H. exists [], a.
        unfold parse_output in *.
        destruct (looks_like_rows out) eqn:Hl;
          [|simpl in H; congruence].
        destruct out as [| | | | | |s| | | | |]; try discriminate.
        destruct (literal_eval s) as [v| |e] eqn:Hv;
          try (simpl in H; congruence).
        exists s, steps, v. simpl in *.
        destruct (convert_rows v) eqn:Hc; [|congruence].
        repeat split; auto.
      * intros H. destruct (IH H) as (pre & a' & s & rest & v & -> & Hp & R).
        exists (StepPair a out :: pre), a', s, rest, v.
        split; [reflexivity|]. split; [|exact R].
        constructor; [exact Ha | exact Hp].
    + intros H. destruct (IH H) as (pre & a' & s & rest & v & -> & Hp & R).
      exists (StepOther :: pre), a', s, rest, v.
      split; [reflexivity|]. split; [|exact R].
      constructor; [reflexivity | exact Hp].
Qed.

Lemma rows_present_inv_witness :
  exists pre a s rest v,
    [StepOther; StepPair (query_action "SELECT 1") (PStr (str "[(1,)]"))]
    = pre ++ StepPair a (PStr s) :: rest
    /\ literal_eval_table s = Evaluated v.
Proof.
  destruct (rows_present_inv literal_eval_table
              [StepOther;
               StepPair (query_action "SELECT 1") (PStr (str "[(1,)]"))])
    as (pre & a & s & rest & v & E & _ & _ & _ & Hv & _).
  - discriminate.
  - exists pre, a, s, rest, v. auto.
Defined.

(** ** The conversion of rows *)

Lemma comprehension_length {A B} (f : A -> outcome B) l bs :
  comprehension f l = Done bs -> length bs = length l.
Proof.
  revert bs. induction l as [|a l IH]; simpl; intros bs H.
  - injection H as <-. reflexivity.
  - destruct (f a); [|discriminate]. simpl in H.
    destruct (comprehension f l); [|discriminate]. simpl in H.
    injection H as <-. simpl. f_equal. now apply IH.
Qed.

Lemma convert_rows_cases rows r :
  convert_rows rows = Done r ->
  r = rows
  \/ exists r0 l rs,
       rows = PList (r0 :: l) /\ is_list_or_tuple r0 = true
       /\ comprehension
            (record_of (column_names (length (seq_items r0)))) (r0 :: l)
          = Done rs
       /\ r = PList rs.
Proof.
  unfold convert_rows.
  destruct rows as [| | | | | | | |l| | |];
    try (simpl; rewrite ?andb_false_r; intros H; injection H as <-; now left).
  destruct l as [|r0 l]; [intros H; injection H as <-; now left|].
  cbn [truthy nonempty is_list seq_items length andb Nat.ltb Nat.leb].
  destruct (is_list_or_tuple r0) eqn:H0;
    [|intros H; injection H as <-; now left].
  destruct (comprehension _ (r0 :: l)) as [rs|e] eqn:Hc; [|discriminate].
  intros H. injection H as <-. right. exists r0, l, rs. auto.
Qed.

(** X9.  The conversion keeps the number of rows. *)
Theorem convert_rows_length (l rs : list pyval) :
  convert_rows (PList l) = Done (PList rs) -> length rs = length l.
Proof.
  intros H. apply convert_rows_cases in H as [E|(r0 & t & rs' & E & _ & Hc & E')].
  - now injection E as ->.
  - injection E as ->. injection E' as ->.
    now apply comprehension_length in Hc.
Qed.

Lemma convert_rows_length_witness :
  length [PRecord [(str "col_1", PInt 1)]; PRecord [(str "col_1", PInt 2)]]
  = length [PTuple [PInt 1]; PTuple [PInt 2; PInt 3]].
Proof.
  apply (convert_rows_length [PTuple [PInt 1]; PTuple [PInt 2; PInt 3]]).
  reflexivity.
Defined.

(** X10.  Converting rows that are converted already changes nothing. *)
Theorem convert_rows_idempotent (rows r : pyval) :
  convert_rows rows = Done r -> convert_rows r = Done r.
Proof.
  intros H. pose proof H as H'.
  apply convert_rows_cases in H' as [->|(r0 & l & rs & -> & H0 & Hc & ->)];
    [exact H|].
  simpl in Hc. unfold record_of at 1 in Hc.
  destruct (iter_items r0); [|discriminate]. simpl in Hc.
  destruct (comprehension _ l); [|discriminate]. simpl in Hc.
  injection Hc as <-. reflexivity.
Qed.

Lemma convert_rows_idempotent_witness :
  convert_rows (PList [PRecord [(str "col_1", PInt 1)]])
  = Done (PList [PRecord [(str "col_1", PInt 1)]]).
Proof.
  apply (convert_rows_idempotent (PList [PTuple [PInt 1]])). reflexivity.
Defined.

(** X11.  The record of a row has as many fields as the row has items, up to the
    number of columns: the items beyond the last column are dropped, and a
    shorter row gives a shorter record. *)
Theorem record_of_fields (n : nat) (r rec : pyval) :
  record_of (column_names n) r = Done rec ->
  exists xs,
    iter_items r = Some xs
    /\ rec = PRecord (zip (column_names n) xs)
    /\ length (zip (column_names n) xs) = Nat.min n (length xs).
Proof.
  unfold record_of. destruct (iter_items r) as [xs|]; [|discriminate].
  intros H. injection H as <-. exists xs.
  rewrite dict_of_columns, length_zip_with, column_names_length. auto.
Qed.

Lemma record_of_fields_witness :
  exists xs,
    iter_items (PTuple [PInt 1; PInt 2; PInt 3]) = Some xs
    /\ PRecord [(str "col_1", PInt 1); (str "col_2", PInt 2)]
       = PRecord (zip (column_names 2) xs)
    /\ length (zip (column_names 2) xs) = Nat.min 2 (length xs).
Proof.
  apply (record_of_fields 2 (PTuple [PInt 1; PInt 2; PInt 3])). reflexivity.
Defined.

(** X12.  The column names of N columns are N names, the name at index [i] is
    [col_] followed by [i + 1] in decimal, and no two of them are equal. *)
Theorem column_names_numbered (n : nat) :
  length (column_names n) = n
  /\ NoDup (column_names n)
  /\ forall i, (i < n)%nat ->
       column_names n !! i = Some (str "col_" ++ decimal (N.of_nat i + 1)).
Proof.
  split; [apply column_names_length|]. split; [apply column_names_NoDup|].
  intros i Hi. unfold column_names.
  change (map ?f ?l) with (f <$> l).
  rewrite list_lookup_fmap, lookup_seq_lt by exact Hi. reflexivity.
Qed.

Lemma column_names_numbered_witness :
  column_names 3 !! 2%nat = Some (str "col_3").
Proof.
  apply (proj2 (proj2 (column_names_numbered 3)) 2%nat). lia.
Defined.

(** ** The paths of a session *)

Lemma path_join_relative (a b : pystr) :
  startswith (str "/") b = false -> path_join a b = dir_prefix a ++ b.
Proof.
  intros Hb. unfold path_join, dir_prefix. rewrite Hb.
  destruct (negb (nonempty a) || endswith (str "/") a);
    [reflexivity | now rewrite <- app_assoc].
Qed.

Lemma path_join_absolute (a b : pystr) :
  startswith (str "/") b = true -> path_join a b = b.
Proof. intros Hb. unfold path_join. now rewrite Hb. Qed.

Lemma startswith_slash_app (s t : pystr) :
  startswith (str "/") t = false ->
  startswith (str "/") (s ++ t) = startswith (str "/") s.
Proof. intros Ht. destruct s as [|c s]; [exact Ht | reflexivity]. Qed.

Lemma dir_prefix_uploads base :
  dir_prefix (path_join base (str "uploads"))
  = dir_prefix base ++ str "uploads/".
Proof.
  rewrite path_join_relative by reflexivity.
  unfold dir_prefix at 1. unfold endswith. rewrite rev_app_distr.
  destruct (dir_prefix base); simpl; now rewrite <- ?app_assoc.
Qed.

Lemma dir_prefix_databases base :
  dir_prefix (path_join base (str "databases"))
  = dir_prefix base ++ str "databases/".
Proof.
  rewrite path_join_relative by reflexivity.
  unfold dir_prefix at 1. unfold endswith. rewrite rev_app_distr.
  destruct (dir_prefix base); simpl; now rewrite <- ?app_assoc.
Qed.

Lemma db_path_relative base sid :
  startswith (str "/") sid = false ->
  db_path_of base sid
  = dir_prefix base ++ str "databases/" ++ sid ++ str ".db".
Proof.
  intros H. unfold db_path_of, DB_DIR.
  rewrite path_join_relative
    by (rewrite startswith_slash_app; [exact H | reflexivity]).
  now rewrite dir_prefix_databases, <- app_assoc.
Qed.

Lemma saved_path_relative base sid name :
  startswith (str "/") sid = false ->
  saved_path_of base sid name
  = dir_prefix base ++ str "uploads/" ++ sid ++ str "_" ++ name.
Proof.
  intros H. unfold saved_path_of, UPLOAD_DIR.
  rewrite path_join_relative
    by (rewrite startswith_slash_app; [exact H | reflexivity]).
  now rewrite dir_prefix_uploads, <- app_assoc.
Qed.

Lemma saved_path_not_db_path base sid name :
  saved_path_of base sid name <> db_path_of base sid.
Proof.
  destruct (startswith (str "/") sid) eqn:H.
  - unfold saved_path_of, db_path_of.
    rewrite !path_join_absolute
      by (rewrite startswith_slash_app; [exact H | reflexivity]).
    intros E. apply app_inv_head in E. discriminate.
  - rewrite saved_path_relative, db_path_relative by exact H.
    intros E. apply app_inv_head in E. discriminate.
Qed.

(** X13.  The raw copy and the store of an upload are two different files,
    whatever the session id and the file name. *)
Theorem raw_copy_is_not_store (base sid name : pystr) :
  saved_path_of base sid name <> db_path_of base sid.
Proof. apply saved_path_not_db_path. Qed.

Lemma db_path_inj base sid1 sid2 :
  startswith (str "/") sid1 = false -> startswith (str "/") sid2 = false ->
  db_path_of base sid1 = db_path_of base sid2 -> sid1 = sid2.
Proof.
  intros H1 H2. rewrite !db_path_relative by assumption. intros E.
  apply app_inv_head in E. apply app_inv_head in E.
  now apply app_inv_tail in E.
Qed.

Lemma saved_path_not_other_db base sid1 name sid2 :
  startswith (str "/") sid1 = false -> startswith (str "/") sid2 = false ->
  saved_path_of base sid1 name <> db_path_of base sid2.
Proof.
  intros H1 H2. rewrite saved_path_relative, db_path_relative by assumption.
  intros E. apply app_inv_head in E. discriminate.
Qed.

(** X14.  Two different session ids that do not begin with a slash (the ids
    [uuid4().hex] makes are such) have two different store files. *)
Theorem store_path_injective (base sid1 sid2 : pystr) :
  startswith (str "/") sid1 = false -> startswith (str "/") sid2 = false ->
  sid1 <> sid2 -> db_path_of base sid1 <> db_path_of base sid2.
Proof. intros H1 H2 Hne E. apply Hne. now apply (db_path_inj base). Qed.

Lemma store_path_injective_witness :
  db_path_of (str "/srv") (str "0f3a") <> db_path_of (str "/srv") (str "0f3b").
Proof.
  apply (store_path_injective (str "/srv") (str "0f3a") (str "0f3b"));
    [reflexivity | reflexivity | discriminate].
Defined.

(** ** More on the upload endpoint *)

Lemma lower_app s t : lower (s ++ t) = lower s ++ lower t.
Proof. unfold lower. apply flat_map_app. Qed.

Lemma is_csv_suffix stem : is_csv (stem ++ str ".csv") = true.
Proof. unfold is_csv. rewrite lower_app. apply endswith_app. Qed.

Lemma rfind_from_absent i last c s :
  forallb (fun x => negb (x =? c)) s = true -> rfind_from i last c s = last.
Proof.
  revert i last. induction s as [|x s IH]; intros i last; [reflexivity|].
  simpl. rewrite andb_true_iff, negb_true_iff. intros [-> Hs]. now apply IH.
Qed.

Lemma rfind_from_last i last c s t :
  forallb (fun x => negb (x =? c)) t = true ->
  rfind_from i last c (s ++ c :: t) = (i + Z.of_nat (length s))%Z.
Proof.
  intros Ht. revert i last. induction s as [|x s IH]; intros i last.
  - simpl. rewrite N.eqb_refl, (rfind_from_absent _ _ _ _ Ht). lia.
  - simpl. rewrite IH. lia.
Qed.

(** The root of [stem.ext]: the stem, when neither part holds a slash, the
    extension holds no dot and the stem is not made of dots only. *)
Lemma splitext_root_stem stem ext :
  forallb (fun x => negb (x =? 0x2F)) (stem ++ ext) = true ->
  forallb (fun x => negb (x =? 0x2E)) ext = true ->
  existsb (fun c => negb (c =? 0x2E)) stem = true ->
  splitext_root (stem ++ 0x2E :: ext) = stem.
Proof.
  intros Hsep Hdot Hstem. unfold splitext_root, rfind.
  rewrite (rfind_from_last 0 (-1) 0x2E stem ext Hdot).
  rewrite (rfind_from_absent 0 (-1) 0x2F).
  - assert ((-1 <? 0 + Z.of_nat (length stem))%Z = true) as ->
        by (apply Z.ltb_lt; lia).
    replace (Z.to_nat (0 + Z.of_nat (length stem))) with (length stem) by lia.
    rewrite take_app_length.
    change (drop (Z.to_nat (-1 + 1)) stem) with stem. now rewrite Hstem.
  - rewrite forallb_app in *. simpl.
    apply andb_true_iff in Hsep as [-> ->]. reflexivity.
Qed.

Section UploadFurther.

Variable BASE_DIR : pystr.
Variable writable : pystr -> bool.
Variable DataFrame : Type.
Variable read_csv : list N -> outcome DataFrame.
Variable read_excel : list N -> outcome (list (pystr * DataFrame)).
Variable to_sql :
  pystr -> DataFrame -> option (list N) -> option (list N) * outcome unit.

Local Abbreviation upload :=
  (upload_file BASE_DIR writable DataFrame read_csv read_excel to_sql).
Local Abbreviation saved_path := (saved_path_of BASE_DIR).
Local Abbreviation db_path := (db_path_of BASE_DIR).
Local Abbreviation ingest_file :=
  (ingest DataFrame read_csv read_excel to_sql).

Lemma upload_ok_inv (sid : pystr) (file : UploadFile) (fs fs' : FS)
    (resp : UploadResponse) :
  upload sid file fs = (fs', OK resp) ->
  exists name,
    filename file = Some name /\ name <> []
    /\ writable (saved_path sid name) = true
    /\ ingest_file name (saved_path sid name) (db_path sid)
         (<[saved_path sid name := contents file]> fs)
       = (fs', Done (tables resp))
    /\ up_session_id resp = sid
    /\ message resp = Some (str "Files processed into SQLite DB.").
Proof.
  unfold upload_file. destruct (filename file) as [[|c name]|];
    try discriminate.
  destruct (writable _) eqn:Hw; [|discriminate].
  destruct (ingest _ _ _ _ _ _ _ _) as [fs2 [ts|e]] eqn:Hi; [|discriminate].
  intros H. injection H as <- <-. exists (c :: name).
  repeat split; auto; discriminate.
Qed.

Lemma ingest_sheets_tables (db : pystr) (xls : list (pystr * DataFrame))
    (acc ts : list pystr) (fs fs' : FS) :
  ingest_sheets DataFrame to_sql db xls acc fs = (fs', Done ts) ->
  ts = acc ++ map (fun s => _safe_table_name (fst s)) xls.
Proof.
  revert acc fs. induction xls as [|[sheet df] rest IH]; intros acc fs; simpl.
  - unfold ret. intros H. injection H as _ <-. now rewrite app_nil_r.
  - unfold bind. destruct (df_to_sql _ _ _ _ _ fs) as [fs1 [[]|e]];
      [|discriminate].
    intros H. apply IH in H. now rewrite <- app_assoc in H.
Qed.

Lemma ingest_tables (name saved db : pystr) (fs fs' : FS)
    (ts : list pystr) :
  ingest_file name saved db fs = (fs', Done ts) ->
  (is_csv name = true /\ ts = [_safe_table_name (splitext_root name)])
  \/ (is_csv name = false /\ is_excel name = true
      /\ exists data xls,
           fs !! saved = Some data /\ read_excel data = Done xls
           /\ ts = map (fun s => _safe_table_name (fst s)) xls).
Proof.
  unfold ingest. destruct (is_csv name); [|destruct (is_excel name)].
  - unfold bind, pd_read. destruct (fs !! saved); [|discriminate].
    destruct (read_csv _); [|discriminate].
    destruct (df_to_sql _ _ _ _ _ fs) as [fs1 [[]|e]]; [|discriminate].
    unfold ret. intros H. injection H as _ <-. now left.
  - unfold bind, pd_read. destruct (fs !! saved) as [data|]; [|discriminate].
    destruct (read_excel data) as [xls|] eqn:Hx; [|discriminate].
    intros H. apply ingest_sheets_tables in H. right. eauto 8.
  - discriminate.
Qed.

(** X15.  The upload is answered with status 400 exactly when the file has no
    name or an empty one, and then the disk is left as it was. *)
Theorem upload_400_iff_no_name (sid : pystr) (file : UploadFile) (fs : FS) :
  (status (snd (upload sid file fs)) = 400
   <-> (filename file = None \/ filename file = Some []))
  /\ (status (snd (upload sid file fs)) = 400 ->
      fst (upload sid file fs) = fs).
Proof.
  unfold upload_file. destruct (filename file) as [[|c name]|]; simpl;
    [tauto| |tauto].
  destruct (writable _);
    [destruct (ingest _ _ _ _ _ _ _ _) as [fs2 [ts|e]]|]; simpl;
    (split; [split; [discriminate | intros [H|H]; discriminate]
            | discriminate]).
Qed.

Lemma upload_touches_own_paths (sid : pystr) (file : UploadFile) (fs : FS)
    (p : pystr) :
  p <> db_path sid ->
  (forall name, filename file = Some name -> p <> saved_path sid name) ->
  fst (upload sid file fs) !! p = fs !! p.
Proof.
  intros Hdb Hsaved. unfold upload_file.
  destruct (filename file) as [[|c name]|]; try reflexivity.
  specialize (Hsaved _ eq_refl).
  destruct (writable _); [|reflexivity].
  pose proof (ingest_frame DataFrame read_csv read_excel to_sql (c :: name)
                (saved_path sid (c :: name)) (db_path sid)
                (<[saved_path sid (c :: name) := contents file]> fs)
                p Hdb) as Hf.
  destruct (ingest _ _ _ _ _ _ _ _) as [fs2 [ts|e]]; simpl in *.
  - rewrite Hf. now apply lookup_insert_ne.
  - rewrite !lookup_remove_if_exists, !decide_False by congruence.
    rewrite Hf. now apply lookup_insert_ne.
Qed.

(** X16.  Whatever the upload comes to, it changes no file but the raw copy and
    the store of its own session. *)
Theorem upload_frame (sid : pystr) (file : UploadFile) (fs : FS)
    (p : pystr) :
  p <> db_path sid ->
  (forall name, filename file = Some name -> p <> saved_path sid name) ->
  fst (upload sid file fs) !! p = fs !! p.
Proof. apply upload_touches_own_paths. Qed.

Lemma no_slash_relative (s : pystr) :
  forallb (fun x => negb (x =? 0x2F)) s = true ->
  startswith (str "/") s = false.
Proof.
  destruct s as [|c s]; [reflexivity|].
  cbn [forallb]. rewrite andb_true_iff, negb_true_iff, N.eqb_neq.
  intros [Hc _].
  change (startswith (str "/") (c :: s)) with ((0x2F =? c) && true).
  rewrite andb_true_r. apply N.eqb_neq. congruence.
Qed.

(** X17.  An upload of a session leaves the store of any other session
    alone, for session ids and a file name that hold no slash: the two
    stores are then two names in the directory of the stores. *)
Theorem upload_keeps_other_stores (sid sid' : pystr) (file : UploadFile)
    (fs : FS) :
  forallb (fun x => negb (x =? 0x2F)) sid = true ->
  forallb (fun x => negb (x =? 0x2F)) sid' = true ->
  (forall name, filename file = Some name ->
                forallb (fun x => negb (x =? 0x2F)) name = true) ->
  sid <> sid' ->
  fst (upload sid file fs) !! db_path sid' = fs !! db_path sid'.
Proof.
  intros H H' _ Hne.
  apply no_slash_relative in H. apply no_slash_relative in H'.
  apply upload_touches_own_paths.
  - intros E. apply Hne. symmetry. now apply (db_path_inj BASE_DIR).
  - intros name _ E. symmetry in E. revert E.
    now apply saved_path_not_other_db.
Qed.

(** X18.  A successful upload had a name that ends in [.csv], [.xls] or [.xlsx]
    (in any case), and answers with the session id it was given. *)
Theorem upload_ok_supported (sid : pystr) (file : UploadFile) (fs fs' : FS)
    (resp : UploadResponse) :
  upload sid file fs = (fs', OK resp) ->
  up_session_id resp = sid
  /\ exists name,
       filename file = Some name
       /\ (is_csv name = true \/ is_excel name = true).
Proof.
  intros H. apply upload_ok_inv in H as (name & Hn & _ & _ & Hi & Hs & _).
  split; [exact Hs|]. exists name. split; [exact Hn|].
  apply ingest_tables in Hi as [[-> _]|(_ & -> & _)]; auto.
Qed.

(** X19.  After a successful upload the raw copy holds the bytes that were
    uploaded. *)
Theorem upload_ok_keeps_raw_copy (sid : pystr) (file : UploadFile)
    (fs fs' : FS) (resp : UploadResponse) :
  upload sid file fs = (fs', OK resp) ->
  exists name,
    filename file = Some name
    /\ fs' !! saved_path sid name = Some (contents file).
Proof.
  intros H. apply upload_ok_inv in H as (name & Hn & _ & _ & Hi & _).
  exists name. split; [exact Hn|].
  pose proof (ingest_frame DataFrame read_csv read_excel to_sql name
                (saved_path sid name) (db_path sid)
                (<[saved_path sid name := contents file]> fs)
                (saved_path sid name)
                (saved_path_not_db_path BASE_DIR sid name)) as Hf.
  rewrite Hi in Hf. simpl in Hf. rewrite Hf. apply lookup_insert_eq.
Qed.

(** X20.  A successful upload of a CSV file names one table, the sanitized root
    of the file name. *)
Theorem upload_csv_table (sid name : pystr) (data : list N) (fs fs' : FS)
    (resp : UploadResponse) :
  is_csv name = true ->
  upload sid {| filename := Some name; contents := data |} fs
  = (fs', OK resp) ->
  tables resp = [_safe_table_name (splitext_root name)].
Proof.
  intros Hc H. apply upload_ok_inv in H as (n & Hn & _ & _ & Hi & _).
  simpl in Hn. injection Hn as <-.
  apply ingest_tables in Hi as [[_ ->]|(Hc' & _)]; [reflexivity|congruence].
Qed.

(** X21.  A successful upload of a file named [stem.csv], where the stem holds
    no slash and is not made of dots only, names the table of the
    sanitized stem. *)
Theorem upload_csv_stem (sid stem : pystr) (data : list N) (fs fs' : FS)
    (resp : UploadResponse) :
  forallb (fun x => negb (x =? 0x2F)) stem = true ->
  existsb (fun c => negb (c =? 0x2E)) stem = true ->
  upload sid {| filename := Some (stem ++ str ".csv"); contents := data |} fs
  = (fs', OK resp) ->
  tables resp = [_safe_table_name stem].
Proof.
  intros Hsep Hstem H. apply upload_ok_inv in H as (n & Hn & _ & _ & Hi & _).
  simpl in Hn. injection Hn as <-.
  apply ingest_tables in Hi as [[_ ->]|(Hc' & _)].
  - change (str ".csv") with (0x2E :: str "csv").
    rewrite (splitext_root_stem stem (str "csv")); auto.
    rewrite forallb_app, Hsep. reflexivity.
  - now rewrite is_csv_suffix in Hc'.
Qed.

(** X22.  A successful upload of a workbook names one table for each sheet, in
    the order of the sheets: the sanitized sheet names, equal ones
    included. *)
Theorem upload_excel_tables (sid name : pystr) (data : list N) (fs fs' : FS)
    (resp : UploadResponse) :
  is_csv name = false ->
  upload sid {| filename := Some name; contents := data |} fs
  = (fs', OK resp) ->
  exists xls,
    read_excel data = Done xls
    /\ tables resp = map (fun s => _safe_table_name (fst s)) xls.
Proof.
  intros Hc H. apply upload_ok_inv in H as (n & Hn & _ & _ & Hi & _).
  simpl in Hn. injection Hn as <-.
  apply ingest_tables in Hi as [[Hc' _]|(_ & _ & d & xls & Hd & Hx & ->)];
    [congruence|].
  rewrite lookup_insert_eq in Hd. injection Hd as <-. eauto.
Qed.

(** X23.  Every table name a successful upload answers with is an identifier:
    it matches [^[a-z_][a-z0-9_]*$]. *)
Theorem upload_tables_identifiers (sid : pystr) (file : UploadFile)
    (fs fs' : FS) (resp : UploadResponse) :
  upload sid file fs = (fs', OK resp) ->
  Forall (fun t => is_identifier t = true) (tables resp).
Proof.
  intros H. apply upload_ok_inv in H as (name & _ & _ & _ & Hi & _).
  apply ingest_tables in Hi as [[_ ->]|(_ & _ & d & xls & _ & _ & ->)].
  - repeat constructor. apply safe_table_name_identifier.
  - induction xls; simpl; constructor; auto.
    apply safe_table_name_identifier.
Qed.

Lemma ingest_sheets_store (db : pystr) (xls : list (pystr * DataFrame))
    (acc ts : list pystr) (fs fs' : FS) :
  (forall tn df d r, to_sql tn df d = (r, Done tt) -> is_Some r) ->
  ingest_sheets DataFrame to_sql db xls acc fs = (fs', Done ts) ->
  xls <> [] \/ is_Some (fs !! db) -> is_Some (fs' !! db).
Proof.
  intros Hsql. revert acc fs.
  induction xls as [|[sheet df] rest IH]; intros acc fs; simpl.
  - unfold ret. intros H. injection H as <- _. intros [|]; [contradiction|auto].
  - unfold bind, df_to_sql.
    destruct (to_sql (_safe_table_name sheet) df (fs !! db)) as [r [[]|e]] eqn:E;
      [|discriminate].
    apply Hsql in E as [d ->]. simpl. intros H _.
    apply IH in H; [exact H|]. right. rewrite lookup_insert_eq. eauto.
Qed.

(** With a writer that leaves a store file whenever it succeeds, a
    successful ingestion that names a table leaves a store file. *)
Lemma ingest_store (name saved db : pystr) (fs fs' : FS) (ts : list pystr) :
  (forall tn df d r, to_sql tn df d = (r, Done tt) -> is_Some r) ->
  ingest_file name saved db fs = (fs', Done ts) -> ts <> [] ->
  is_Some (fs' !! db).
Proof.
  intros Hsql. unfold ingest. destruct (is_csv name); [|destruct (is_excel name)].
  - unfold bind, pd_read. destruct (fs !! saved); [|discriminate].
    destruct (read_csv _); [|discriminate]. unfold df_to_sql.
    destruct (to_sql _ _ _) as [r [[]|e]] eqn:E; [|discriminate].
    apply Hsql in E as [d ->]. unfold ret. simpl.
    intros H _. injection H as <- _. rewrite lookup_insert_eq. eauto.
  - unfold bind, pd_read. destruct (fs !! saved) as [data|]; [|discriminate].
    destruct (read_excel data) as [xls|]; [|discriminate].
    intros H Hts. pose proof (ingest_sheets_tables _ _ _ _ _ _ H) as Et.
    apply (ingest_sheets_store _ _ _ _ _ _ Hsql H). left.
    intros ->. now apply Hts.
  - discriminate.
Qed.

End UploadFurther.

(** ** More on the ask endpoint *)

Section AskFurther.

Variable BASE_DIR : pystr.
Variable literal_eval : pystr -> eval_result.
Variable Conn : Type.
Variable connect : pystr -> list N -> outcome Conn.
Variable run_tool :
  pystr -> Conn -> pystr -> pystr -> FS -> Conn * FS * pystr.
Variable agent : list (pystr * pyval) -> agent_run.
Variable validates : QueryResponse -> bool.

Local Abbreviation ask :=
  (ask_question BASE_DIR literal_eval Conn connect run_tool agent validates).

Lemma respond_status (result : AgentResult) :
  status (respond literal_eval validates result) <> 404.
Proof. unfold respond. destruct (validates _); discriminate. Qed.

Lemma ask_status_404 (query : QueryRequest) (fs : FS) :
  status (snd (ask query fs)) = 404
  <-> fs !! db_path_of BASE_DIR (session_id query) = None.
Proof.
  unfold ask_question.
  destruct (fs !! db_path_of BASE_DIR (session_id query)) as [db|];
    [|split; reflexivity].
  split; [|discriminate].
  destruct (connect _ db) as [c|]; [|discriminate].
  destruct (exec_agent _ _ _ _ c fs) as [fs' [result|e]]; simpl;
    [|discriminate].
  intros H. now apply respond_status in H.
Qed.

(** X24.  A request is answered with status 404 exactly when the store file of
    its session id does not exist. *)
Theorem ask_404_iff_no_store (query : QueryRequest) (fs : FS) :
  status (snd (ask query fs)) = 404
  <-> fs !! db_path_of BASE_DIR (session_id query) = None.
Proof. apply ask_status_404. Qed.

(** X26.  When the agent's result has no [intermediate_steps], the response has
    no statement and no rows; when it has no [output], the answer is the
    empty string. *)
Theorem respond_missing_keys (result : AgentResult) (resp : QueryResponse) :
  respond literal_eval validates result = OK resp ->
  (intermediate_steps result = None ->
   sql_queries resp = [] /\ rows resp = PNone)
  /\ (output result = None -> answer resp = PStr [])
  /\ raw_agent_output resp = result.
Proof.
  unfold respond. destruct (validates _); [|discriminate].
  intros H. injection H as <-. simpl.
  split; [intros ->; split; reflexivity|]. split; [intros ->|]; reflexivity.
Qed.

(** X27.  When the agent raises in the middle of its run, after any number of
    tool calls, the request is answered with status 500 and the message
    of the exception: no part of a result is returned. *)
Theorem ask_agent_failure (query : QueryRequest) (fs fs' : FS) (db : list N)
    (c : Conn) (e : exn) :
  fs !! db_path_of BASE_DIR (session_id query) = Some db ->
  connect (store_uri (db_path_of BASE_DIR (session_id query))) db = Done c ->
  exec_agent Conn run_tool
    (store_uri (db_path_of BASE_DIR (session_id query)))
    (agent (agent_input query)) c fs = (fs', Raised e) ->
  snd (ask query fs)
  = HTTPError 500 (str "Agent execution failed: " ++ exn_str e).
Proof.
  intros Hdb Hc He. unfold ask_question. now rewrite Hdb, Hc, He.
Qed.

Section UploadThenAsk.

Variable writable : pystr -> bool.
Variable DataFrame : Type.
Variable read_csv : list N -> outcome DataFrame.
Variable read_excel : list N -> outcome (list (pystr * DataFrame)).
Variable to_sql :
  pystr -> DataFrame -> option (list N) -> option (list N) * outcome unit.

(** X28.  With a writer that leaves a store file whenever it succeeds: after a
    successful upload that named a table, a question asked with the
    session id of the response is not answered with status 404. *)
Theorem upload_then_ask
    (Hsql : forall tn df d r, to_sql tn df d = (r, Done tt) -> is_Some r)
    (sid : pystr) (file : UploadFile) (fs fs' : FS) (resp : UploadResponse)
    (q : pystr) (k : Z) :
  upload_file BASE_DIR writable DataFrame read_csv read_excel to_sql
    sid file fs = (fs', OK resp) ->
  tables resp <> [] ->
  status (snd (ask {| session_id := up_session_id resp; question := q;
                      top_k := k |} fs')) <> 404.
Proof.
  intros H Hts.
  apply upload_ok_inv in H as (name & _ & _ & _ & Hi & -> & _).
  pose proof (ingest_store _ _ _ _ _ _ _ _ _ _ Hsql Hi Hts) as [db Hdb].
  rewrite ask_status_404. simpl. congruence.
Qed.

End UploadThenAsk.

End AskFurther.

(** ** The further properties on the stand-ins *)

Lemma upload_400_iff_no_name_witness :
  fst (srv_upload (str "0f3a") {| filename := Some []; contents := [] |} ∅)
  = ∅.
Proof.
  apply (proj2 (upload_400_iff_no_name (str "/srv") always_writable (list N)
                  csv_reader two_sheets appending_to_sql (str "0f3a")
                  {| filename := Some []; contents := [] |} ∅)).
  reflexivity.
Defined.

Lemma upload_frame_witness :
  fst (srv_upload (str "0f3a") sales_csv
         {[ str "/srv/notes.txt" := str "keep" ]})
  !! str "/srv/notes.txt"
  = ({[ str "/srv/notes.txt" := str "keep" ]} : FS) !! str "/srv/notes.txt".
Proof.
  apply (upload_frame (str "/srv") always_writable (list N) csv_reader
           two_sheets appending_to_sql (str "0f3a") sales_csv).
  - vm_compute. discriminate.
  - intros name E. injection E as <-. vm_compute. discriminate.
Defined.

Lemma upload_keeps_other_stores_witness :
  fst (srv_upload (str "0f3a") sales_csv
         {[ str "/srv/databases/0f3b.db" := str "other" ]})
  !! db_path_of (str "/srv") (str "0f3b")
  = ({[ str "/srv/databases/0f3b.db" := str "other" ]} : FS)
    !! db_path_of (str "/srv") (str "0f3b").
Proof.
  apply (upload_keeps_other_stores (str "/srv") always_writable (list N)
           csv_reader two_sheets appending_to_sql (str "0f3a") (str "0f3b")
           sales_csv).
  - reflexivity.
  - reflexivity.
  - intros name E. injection E as <-. reflexivity.
  - discriminate.
Defined.

Lemma srv_upload_sales :
  srv_upload (str "0f3a") sales_csv ∅
  = (fst (srv_upload (str "0f3a") sales_csv ∅),
     OK {| up_session_id := str "0f3a";
           tables := [str "t_2024_sales"];
           message := Some (str "Files processed into SQLite DB.") |}).
Proof. vm_compute. reflexivity. Qed.

Lemma srv_upload_book :
  srv_upload (str "0f3a") book_xlsx ∅
  = (fst (srv_upload (str "0f3a") book_xlsx ∅),
     OK {| up_session_id := str "0f3a";
           tables := [str "sheet_1"; str "t_2nd_sheet"];
           message := Some (str "Files processed into SQLite DB.") |}).
Proof. vm_compute. reflexivity. Qed.

Lemma upload_ok_supported_witness :
  exists name,
    filename book_xlsx = Some name
    /\ (is_csv name = true \/ is_excel name = true).
Proof.
  exact (proj2 (upload_ok_supported (str "/srv") always_writable (list N)
                  csv_reader two_sheets appending_to_sql (str "0f3a")
                  book_xlsx ∅ _ _ srv_upload_book)).
Defined.

Lemma upload_ok_keeps_raw_copy_witness :
  exists name,
    filename sales_csv = Some name
    /\ fst (srv_upload (str "0f3a") sales_csv ∅)
       !! saved_path_of (str "/srv") (str "0f3a") name
       = Some (str "a,b").
Proof.
  exact (upload_ok_keeps_raw_copy (str "/srv") always_writable (list N)
           csv_reader two_sheets appending_to_sql (str "0f3a") sales_csv ∅
           _ _ srv_upload_sales).
Defined.

Lemma upload_csv_table_witness :
  [str "t_2024_sales"]
  = [_safe_table_name (splitext_root (str "2024 Sales.csv"))].
Proof.
  refine (upload_csv_table (str "/srv") always_writable (list N) csv_reader
            two_sheets appending_to_sql (str "0f3a") (str "2024 Sales.csv")
            (str "a,b") ∅ _ _ _ srv_upload_sales).
  reflexivity.
Defined.

Lemma upload_csv_stem_witness :
  [str "t_2024_sales"] = [_safe_table_name (str "2024 Sales")].
Proof.
  refine (upload_csv_stem (str "/srv") always_writable (list N) csv_reader
            two_sheets appending_to_sql (str "0f3a") (str "2024 Sales")
            (str "a,b") ∅ _ _ _ _ srv_upload_sales).
  - reflexivity.
  - reflexivity.
Defined.

Lemma upload_excel_tables_witness :
  exists xls,
    two_sheets (str "PK") = Done xls
    /\ [str "sheet_1"; str "t_2nd_sheet"]
       = map (fun s => _safe_table_name (fst s)) xls.
Proof.
  refine (upload_excel_tables (str "/srv") always_writable (list N)
            csv_reader two_sheets appending_to_sql (str "0f3a")
            (str "Book.XLSX") (str "PK") ∅ _ _ _ srv_upload_book).
  reflexivity.
Defined.

Lemma upload_tables_identifiers_witness :
  Forall (fun t => is_identifier t = true)
    [str "sheet_1"; str "t_2nd_sheet"].
Proof.
  exact (upload_tables_identifiers (str "/srv") always_writable (list N)
           csv_reader two_sheets appending_to_sql (str "0f3a") book_xlsx ∅
           _ _ srv_upload_book).
Defined.

Lemma respond_missing_keys_witness :
  let resp := {| answer := PStr []; sql_queries := []; rows := PNone;
                 raw_agent_output :=
                   {| output := None; intermediate_steps := None |} |} in
  sql_queries resp = [] /\ rows resp = PNone.
Proof.
  intros resp.
  refine (proj1 (respond_missing_keys literal_eval_table accepts_all
                   {| output := None; intermediate_steps := None |} resp _)
            _); reflexivity.
Defined.

Lemma ask_agent_failure_witness :
  snd (ask_question (str "/srv") literal_eval_table (option (list N))
         sqlite_connect sqlite_tool failing_agent accepts_all
         {| session_id := str "0f3a"; question := str "Anything"; top_k := 5 |}
         {[ str "/srv/databases/0f3a.db" := str "SQLite format 3" ]})
  = HTTPError 500 (str "Agent execution failed: quota exceeded").
Proof.
  refine (ask_agent_failure (str "/srv") literal_eval_table
            (option (list N)) sqlite_connect sqlite_tool failing_agent
            accepts_all _ _
            {[ str "/srv/databases/0f3a.db" := str "SQLite format 3" ]}
            (str "SQLite format 3") None
            (PyError (str "ResourceExhausted") (str "quota exceeded")) _ _ _).
  - vm_compute. reflexivity.
  - reflexivity.
  - vm_compute. reflexivity.
Defined.

Lemma appending_to_sql_leaves_file tn df d r :
  appending_to_sql tn df d = (r, Done tt) -> is_Some r.
Proof. unfold appending_to_sql. intros H. injection H as <-. eauto. Qed.

Lemma upload_then_ask_witness :
  status (snd (ask_question (str "/srv") literal_eval_table
                 (option (list N)) sqlite_connect sqlite_tool
                 querying_agent accepts_all
                 {| session_id := str "0f3a"; question := str "Who?";
                    top_k := 5 |}
                 (fst (srv_upload (str "0f3a") sales_csv ∅)))) <> 404.
Proof.
  refine (upload_then_ask (str "/srv") literal_eval_table
            (option (list N)) sqlite_connect sqlite_tool querying_agent
            accepts_all always_writable (list N)
            csv_reader two_sheets appending_to_sql
            appending_to_sql_leaves_file (str "0f3a") sales_csv ∅ _ _
            (str "Who?") 5%Z srv_upload_sales _).
  discriminate.
Defined.
